(** * Conversation-to-Jira-stories service: model and properties

    A shallow embedding of [main.py] (the current application) and of
    [main - Copy.py] (the older, form-only application), with the
    properties of the input resolver, the requirement extractor, the
    document renderer and the POST handler.

    Conventions.
    - A Python [str] is a [string]; its characters are read as the code
      points 0..255, on which [strip], [lower] and [repr] below are exact.
    - The values [json.loads] returns are the type [value]; a [dict] keeps
      its insertion order, so it is an association list.
    - Code that can raise returns a [result]; the exception carries its class
      and the text [str(e)] gives.
    - Everything outside the repository (the environment, the text-generation
      service, the JSON parser, the document library, the UTF-8 decoder) is a
      field of [Platform]. *)

From Stdlib Require Import String Ascii List Bool Arith ZArith Lia.
From Stdlib Require Strings.Byte.
From Stdlib Require Import DecimalString.
Import ListNotations.

Local Open Scope list_scope.
Local Open Scope string_scope.

(** ** Python strings *)

Module PyStr.

Definition dq : string := String "034"%char EmptyString.
Definition nl : string := String "010"%char EmptyString.

(** [str.isspace] on one character, for the code points below 256. *)
Definition isspace (c : ascii) : bool :=
  let n := nat_of_ascii c in
  (((9 <=? n) && (n <=? 13)) || ((28 <=? n) && (n <=? 32))
   || (n =? 133) || (n =? 160))%nat.

Fixpoint lstrip (s : string) : string :=
  match s with
  | EmptyString => EmptyString
  | String c s' => if isspace c then lstrip s' else s
  end.

(** [rstrip] keeps a character when it is not a space or when something
    survives to its right. *)
Fixpoint rstrip (s : string) : string :=
  match s with
  | EmptyString => EmptyString
  | String c s' =>
      match rstrip s' with
      | EmptyString => if isspace c then EmptyString else String c EmptyString
      | r => String c r
      end
  end.

(** [s.strip()] *)
Definition strip (s : string) : string := rstrip (lstrip s).

Fixpoint all_space (s : string) : bool :=
  match s with
  | EmptyString => true
  | String c s' => isspace c && all_space s'
  end.

Fixpoint map (f : ascii -> ascii) (s : string) : string :=
  match s with
  | EmptyString => EmptyString
  | String c s' => String (f c) (map f s')
  end.

(** [str.lower] on one character, for the code points below 256. *)
Definition lower_char (c : ascii) : ascii :=
  let n := nat_of_ascii c in
  if (((65 <=? n) && (n <=? 90))
      || ((192 <=? n) && (n <=? 222) && negb (n =? 215)))%nat
  then ascii_of_nat (n + 32) else c.

(** [s.lower()] *)
Definition lower (s : string) : string := map lower_char s.

(** [s[:n]] *)
Fixpoint take (n : nat) (s : string) : string :=
  match n, s with
  | O, _ => EmptyString
  | _, EmptyString => EmptyString
  | S n', String c s' => String c (take n' s')
  end.

(** [s[n:]] *)
Fixpoint drop (n : nat) (s : string) : string :=
  match n, s with
  | O, _ => s
  | _, EmptyString => EmptyString
  | S n', String _ s' => drop n' s'
  end.

(** [s.endswith(suffix)] *)
Definition endswith (s suffix : string) : bool :=
  (String.length suffix <=? String.length s)%nat
  && String.eqb (drop (String.length s - String.length suffix) s) suffix.

(** [s.replace("\n", " ")] *)
Definition replace_nl (s : string) : string :=
  map (fun c => if Ascii.eqb c "010"%char then " "%char else c) s.

(** [sep.join(items)] on a list of strings. *)
Fixpoint join (sep : string) (items : list string) : string :=
  match items with
  | [] => EmptyString
  | [x] => x
  | x :: rest => x ++ sep ++ join sep rest
  end.

(** The one-character strings of [s], as iterating a [str] yields them. *)
Fixpoint chars (s : string) : list string :=
  match s with
  | EmptyString => []
  | String c s' => String c EmptyString :: chars s'
  end.

Fixpoint flat_map (f : ascii -> string) (s : string) : string :=
  match s with
  | EmptyString => EmptyString
  | String c s' => f c ++ flat_map f s'
  end.

(** [html.escape(s)] with its default [quote=True]. *)
Definition escape_char (c : ascii) : string :=
  if Ascii.eqb c "&"%char then "&amp;"
  else if Ascii.eqb c "<"%char then "&lt;"
  else if Ascii.eqb c ">"%char then "&gt;"
  else if Ascii.eqb c "034"%char then "&quot;"
  else if Ascii.eqb c "'"%char then "&#x27;"
  else String c EmptyString.

Definition html_escape (s : string) : string := flat_map escape_char s.

(** [needle in hay] *)
Definition contains (needle hay : string) : Prop :=
  exists pre post, hay = pre ++ needle ++ post.

(** [str(n)] for an [int]. *)
Definition of_Z (n : Z) : string := NilZero.string_of_int (Z.to_int n).

Fixpoint mem (c : ascii) (s : string) : bool :=
  match s with
  | EmptyString => false
  | String c' s' => Ascii.eqb c c' || mem c s'
  end.

Definition hex_digit (n : nat) : ascii :=
  if (n <? 10)%nat then ascii_of_nat (48 + n) else ascii_of_nat (87 + n).

(** [str.isprintable] on one character, for the code points below 256. *)
Definition isprintable (c : ascii) : bool :=
  let n := nat_of_ascii c in
  ((32 <=? n) && negb ((127 <=? n) && (n <=? 160)) && negb (n =? 173))%nat.

(** [repr(s)] for a [str]: single quotes unless the text has a single quote
    and no double quote; backslash escapes for the quote, the backslash and
    the unprintable characters. *)
Definition repr_char (quote : ascii) (c : ascii) : string :=
  let n := nat_of_ascii c in
  if Ascii.eqb c quote || Ascii.eqb c "\"%char
  then String "\"%char (String c EmptyString)
  else if (n =? 9)%nat then "\t"
  else if (n =? 10)%nat then "\n"
  else if (n =? 13)%nat then "\r"
  else if isprintable c then String c EmptyString
  else String "\"%char (String "x"%char
         (String (hex_digit (n / 16)) (String (hex_digit (n mod 16)) EmptyString))).

Definition repr (s : string) : string :=
  let quote :=
    if mem "'"%char s && negb (mem "034"%char s) then "034"%char else "'"%char in
  String quote (flat_map (repr_char quote) s ++ String quote EmptyString).

End PyStr.

(** ** Python values, exceptions and results *)

(** What [json.loads] returns: [None], [bool], [int], [str], [list] and a
    [dict] with [str] keys in insertion order.  [float] is not modelled. *)
#[warnings="-register-all"]
Inductive value : Type :=
| VNone
| VBool (b : bool)
| VInt (n : Z)
| VStr (s : string)
| VList (items : list value)
| VDict (entries : list (string * value)).

Definition dict : Type := list (string * value).

Inductive exn_class : Type :=
| ValueError          (* the class and its subclasses *)
| TypeError
| AttributeError
| OtherException (name : string).

(** An exception: its class and the text of [str(e)]. *)
Inductive exn : Type := Exn (cls : exn_class) (msg : string).

Definition exn_msg (e : exn) : string := let 'Exn _ m := e in m.

Definition is_ValueError (e : exn) : bool :=
  match e with Exn ValueError _ => true | _ => false end.

Inductive result (A : Type) : Type :=
| Ok (a : A)
| Raise (e : exn).
Arguments Ok {A} a.
Arguments Raise {A} e.

Definition bind {A B : Type} (r : result A) (k : A -> result B) : result B :=
  match r with
  | Ok a => k a
  | Raise e => Raise e
  end.

Notation "x <- r ;; k" := (bind r (fun x => k))
  (at level 61, r at next level, right associativity).

Fixpoint mapM {A B : Type} (f : A -> result B) (l : list A) : result (list B) :=
  match l with
  | [] => Ok []
  | a :: l' => b <- f a ;; bs <- mapM f l' ;; Ok (b :: bs)
  end.

Module Py.

(** [type(v).__name__] *)
Definition type_name (v : value) : string :=
  match v with
  | VNone => "NoneType"
  | VBool _ => "bool"
  | VInt _ => "int"
  | VStr _ => "str"
  | VList _ => "list"
  | VDict _ => "dict"
  end.

(** [bool(v)] *)
Definition truthy (v : value) : bool :=
  match v with
  | VNone => false
  | VBool b => b
  | VInt n => negb (Z.eqb n 0)
  | VStr s => negb (String.eqb s "")
  | VList l => match l with [] => false | _ => true end
  | VDict d => match d with [] => false | _ => true end
  end.

(** [repr(v)] *)
Fixpoint repr (v : value) : string :=
  match v with
  | VNone => "None"
  | VBool true => "True"
  | VBool false => "False"
  | VInt n => PyStr.of_Z n
  | VStr s => PyStr.repr s
  | VList l => "[" ++ PyStr.join ", " (List.map repr l) ++ "]"
  | VDict d =>
      "{" ++ PyStr.join ", "
               (List.map (fun kv => PyStr.repr (fst kv) ++ ": " ++ repr (snd kv)) d)
          ++ "}"
  end.

(** [str(v)], which is also what an f-string field [{v}] gives. *)
Definition str (v : value) : string :=
  match v with
  | VStr s => s
  | _ => repr v
  end.

(** Lookup in a [dict]. *)
Fixpoint dict_get (d : dict) (k : string) : option value :=
  match d with
  | [] => None
  | (k', v) :: d' => if String.eqb k' k then Some v else dict_get d' k
  end.

(** [d[k] = v]: the entry is replaced in place, or added at the end. *)
Fixpoint dict_set (d : dict) (k : string) (v : value) : dict :=
  match d with
  | [] => [(k, v)]
  | (k', v') :: d' =>
      if String.eqb k' k then (k', v) :: d' else (k', v') :: dict_set d' k v
  end.

(** [d.get(k, default)] on a [dict]. *)
Definition field (d : dict) (k : string) (default : value) : value :=
  match dict_get d k with
  | Some v => v
  | None => default
  end.

(** [o.get(k, default)]: only a [dict] has the method. *)
Definition get (o : value) (k : string) (default : value) : result value :=
  match o with
  | VDict d => Ok (field d k default)
  | _ => Raise (Exn AttributeError
                  ("'" ++ type_name o ++ "' object has no attribute 'get'"))
  end.

(** [o[k] = v] with a [str] key. *)
Definition setitem (o : value) (k : string) (v : value) : result value :=
  match o with
  | VDict d => Ok (VDict (dict_set d k v))
  | VList _ =>
      Raise (Exn TypeError "list indices must be integers or slices, not str")
  | _ => Raise (Exn TypeError
                  ("'" ++ type_name o ++ "' object does not support item assignment"))
  end.

(** The items a [for] loop over [o] visits. *)
Definition iter (o : value) : result (list value) :=
  match o with
  | VList l => Ok l
  | VDict d => Ok (List.map (fun kv => VStr (fst kv)) d)
  | VStr s => Ok (List.map VStr (PyStr.chars s))
  | _ => Raise (Exn TypeError ("'" ++ type_name o ++ "' object is not iterable"))
  end.

Fixpoint join_items (i : nat) (items : list value) : result (list string) :=
  match items with
  | [] => Ok []
  | VStr s :: rest => ss <- join_items (S i) rest ;; Ok (s :: ss)
  | v :: _ =>
      Raise (Exn TypeError
               ("sequence item " ++ PyStr.of_Z (Z.of_nat i)
                ++ ": expected str instance, " ++ type_name v ++ " found"))
  end.

(** [sep.join(o)] *)
Definition join (sep : string) (o : value) : result string :=
  match o with
  | VList _ | VDict _ | VStr _ =>
      items <- iter o ;; ss <- join_items 0 items ;; Ok (PyStr.join sep ss)
  | _ => Raise (Exn TypeError "can only join an iterable")
  end.

End Py.

(** ** The document the renderer builds *)

(** A run of a paragraph: the text handed to [add_run], and the [bold] and
    [font.size] set on it afterwards. *)
Record run : Type := Run {
  run_text : value;
  run_bold : bool;
  run_size : option Z
}.

(** One call on the document, with the runs then added to what it returned:
    [add_heading(text, level)], [add_paragraph(text, style)] and
    [add_page_break()]. *)
Inductive block : Type :=
| Heading (text : string) (level : Z) (runs : list run)
| Paragraph (text : value) (style : option string) (runs : list run)
| PageBreak.

Definition document : Type := list block.

(** ** What the program does not define *)

(** The arguments of [client.responses.create]. *)
Record request : Type := Request {
  model : string;
  system_content : string;
  user_content : string;
  max_output_tokens : Z;
  text_format : string
}.

Inductive parsed : Type :=
| Parsed (v : value)
| JSONDecodeError (msg : string).

Record Platform : Type := {
  (** [os.getenv(name)] *)
  getenv : string -> option string;
  (** [OpenAI(api_key=k).responses.create(...).output_text] *)
  responses_create : string -> request -> result string;
  (** [json.loads(text)] *)
  json_loads : string -> parsed;
  (** [data.decode("utf-8", errors="ignore")] *)
  decode_utf8_ignore : list Byte.byte -> string;
  (** [[p.text for p in Document(io.BytesIO(data)).paragraphs]] *)
  docx_paragraphs : list Byte.byte -> result (list string);
  (** [doc.save(buffer)] and the bytes of the buffer; a call the library
      refuses while the document is built is reported here *)
  docx_save : document -> result (list Byte.byte)
}.

(** ** Requirement extractor: [generate_requirements_from_text] *)

Import PyStr.

Definition system_prompt : string :=
  String.concat EmptyString
    [nl;
     "You are a senior business analyst who writes clear, concise Jira-style requirements.";
     nl; nl;
     "Given raw notes or conversation transcripts, extract a set of IMPLEMENTABLE requirements.";
     nl; nl; "Rules:"; nl;
     "- Identify each distinct feature or piece of functionality and generate a separate Jira Story for each.";
     nl;
     "- Do NOT merge multiple features into one story. One feature = one story.";
     nl; "- Use user story style when relevant:"; nl; "  "; dq;
     "As a <role>, I want <feature> so that <benefit>."; dq; nl;
     "- Always include acceptance criteria in GIVEN-WHEN-THEN style where possible.";
     nl;
     "- If something is unclear, make a reasonable assumption and mention it in the description.";
     nl; "- Output VALID JSON following this exact structure:"; nl; nl; "{"; nl;
     "  "; dq; "project_key"; dq; ": "; dq; "SHORT_PROJECT_CODE"; dq; ","; nl;
     "  "; dq; "requirements"; dq; ": ["; nl; "    {"; nl; "      "; dq; "id";
     dq; ": "; dq; "REQ-1"; dq; ","; nl; "      "; dq; "issue_type"; dq; ": ";
     dq; "Story"; dq; " | "; dq; "Task"; dq; " | "; dq; "Bug"; dq; ","; nl;
     "      "; dq; "summary"; dq; ": "; dq; "Short Jira summary line"; dq; ",";
     nl; "      "; dq; "description"; dq; ": "; dq;
     "Longer functional description with key details and assumptions."; dq; ",";
     nl; "      "; dq; "priority"; dq; ": "; dq; "High"; dq; " | "; dq;
     "Medium"; dq; " | "; dq; "Low"; dq; ","; nl; "      "; dq; "story_points";
     dq; ": 1,"; nl; "      "; dq; "acceptance_criteria"; dq; ": ["; nl;
     "        "; dq; "GIVEN ... WHEN ... THEN ..."; dq; ","; nl; "        "; dq;
     "..."; dq; nl; "      ],"; nl; "      "; dq; "dependencies"; dq; ": ["; nl;
     "        "; dq; "REQ-2"; dq; nl; "      ]"; nl; "    }"; nl; "  ]"; nl;
     "}"; nl; nl; "- Use REQ-1, REQ-2, ... for IDs in order."; nl;
     "- Always include at least one acceptance_criteria item."; nl;
     "- If story_points is unclear, estimate a number between 1 and 13."; nl].

Definition user_prompt (raw_text : string) : string :=
  String.concat EmptyString
    [nl; "Source text (notes / conversation):"; nl; nl;
     dq; dq; dq; raw_text; dq; dq; dq; nl; nl;
     "Now produce the JSON only, with no extra commentary."; nl].

Definition missing_key_message : string :=
  "Missing OPENAI_API_KEY environment variable. "
  ++ "Please set it before running this app.".

Definition empty_response_message : string :=
  "The model returned an empty response. Please try again.".

Definition invalid_json_message (parser_error json_text : string) : string :=
  "Model output was not valid JSON. "
  ++ "Error: " ++ parser_error ++ ". Output preview: "
  ++ replace_nl (take 200 json_text).

(** The error kinds of the specification.  The program raises [ValueError]
    for each of them and tells them apart by the message. *)
Definition ConfigurationError : exn := Exn ValueError missing_key_message.
Definition EmptyResponseError : exn := Exn ValueError empty_response_message.
Definition SchemaError (msg : string) : exn := Exn ValueError msg.
Definition ValidationError (msg : string) : exn := Exn ValueError msg.

(** The one request the extractor sends. *)
Definition extraction_request (raw_text : string) : request :=
  {| model := "gpt-4o-mini";
     system_content := system_prompt;
     user_content := user_prompt raw_text;
     max_output_tokens := 2000;
     text_format := "json_object" |}.

Section Extractor.

Variable W : Platform.

Definition generate_requirements_from_text (raw_text : string) : result value :=
  match getenv W "OPENAI_API_KEY" with
  | None | Some EmptyString => Raise (Exn ValueError missing_key_message)
  | Some api_key =>
      json_text <- responses_create W api_key (extraction_request raw_text) ;;
      if String.eqb json_text "" || String.eqb (strip json_text) ""
      then Raise (Exn ValueError empty_response_message)
      else
        match json_loads W json_text with
        | Parsed data => Ok data
        | JSONDecodeError e =>
            Raise (Exn ValueError (invalid_json_message e json_text))
        end
  end.

End Extractor.

(** ** Document renderer: [create_word_bytes_from_requirements] *)

(** The dash of the title is U+2013, beyond the characters of [string]; it
    stands here as its UTF-8 bytes. *)
Definition en_dash : string :=
  String "226"%char (String "128"%char (String "147"%char EmptyString)).

Definition plain (s : string) : run := Run (VStr s) false None.
Definition bold (s : string) : run := Run (VStr s) true None.

Definition overview_text : string :=
  "This document contains auto-generated Jira-style requirements derived "
  ++ "from raw text and conversational input.".

(** What is added before the loop over the requirements. *)
Definition front_matter (project_key : value) : document :=
  [ Heading "" 0
      [Run (VStr (Py.str project_key ++ " " ++ en_dash
                  ++ " Requirements Specification")) false (Some 20%Z)];
    Paragraph (VStr "") None [];
    Heading "Overview" 1 [];
    Paragraph (VStr overview_text) None [];
    PageBreak ].

(** The story-points runs of the metadata paragraph. *)
Definition story_points_runs (story_points : value) : list run :=
  match story_points with
  | VNone => []
  | _ => [bold "   |   Story Points: "; plain (Py.str story_points)]
  end.

(** The metadata paragraph of a requirement. *)
Definition meta_para (issue_type priority story_points : value) : block :=
  Paragraph (VStr "") None
    ([bold "Issue Type: "; Run issue_type false None;
      bold "   |   Priority: "; Run priority false None]
     ++ story_points_runs story_points)%list.

(** The dependencies paragraph of a requirement, when there is one. *)
Definition dependencies_para (dependencies : value) : result (list block) :=
  if Py.truthy dependencies
  then joined <- Py.join ", " dependencies ;;
       Ok [Paragraph (VStr "") None [bold "Dependencies: "; plain joined]]
  else Ok [].

Definition bullet (criterion : value) : block :=
  Paragraph criterion (Some "List Bullet") [].

(** The body of the loop: what one requirement adds to the document. *)
Definition render_requirement (req : value) : result (list block) :=
  req_id <- Py.get req "id" (VStr "REQ-?") ;;
  issue_type <- Py.get req "issue_type" (VStr "Story") ;;
  summary <- Py.get req "summary" (VStr "") ;;
  description <- Py.get req "description" (VStr "") ;;
  priority <- Py.get req "priority" (VStr "Medium") ;;
  story_points <- Py.get req "story_points" VNone ;;
  acceptance_criteria <- Py.get req "acceptance_criteria" (VList []) ;;
  dependencies <- Py.get req "dependencies" (VList []) ;;
  deps <- dependencies_para dependencies ;;
  criteria <- Py.iter acceptance_criteria ;;
  Ok ([Heading (Py.str req_id ++ ": " ++ Py.str summary) 1 [];
       meta_para issue_type priority story_points]
      ++ deps
      ++ [Heading "Description" 2 [];
          Paragraph description None [];
          Heading "Acceptance Criteria" 2 []]
      ++ List.map bullet criteria
      ++ [PageBreak])%list.

(** The document as it stands when it is saved. *)
Definition build_document (data : value) : result document :=
  project_key <- Py.get data "project_key" (VStr "PROJECT") ;;
  requirements <- Py.get data "requirements" (VList []) ;;
  reqs <- Py.iter requirements ;;
  sections <- mapM render_requirement reqs ;;
  Ok (front_matter project_key ++ List.concat sections)%list.

Definition create_word_bytes_from_requirements
    (W : Platform) (data : value) : result (list Byte.byte) :=
  doc <- build_document data ;;
  docx_save W doc.

(** ** Responses *)

Inductive response : Type :=
| HTMLResponse (content : string) (status_code : Z)
| StreamingResponse (body : list Byte.byte) (status_code : Z)
    (media_type : string) (headers : list (string * string)).

Definition docx_media_type : string :=
  "application/vnd.openxmlformats-officedocument.wordprocessingml.document".

(** The download: [StreamingResponse(io.BytesIO(doc_bytes), media_type=...,
    headers={"Content-Disposition": ...})]. *)
Definition attachment (doc_bytes : list Byte.byte) (filename : string) : response :=
  StreamingResponse doc_bytes 200 docx_media_type
    [("Content-Disposition", "attachment; filename=" ++ dq ++ filename ++ dq)].

Definition generic_failure_message (details : string) : string :=
  "Something went wrong while generating the Word file. "
  ++ "Please try again or contact support. "
  ++ "Details: " ++ details.

(** The text the two [except] clauses of a handler show for an exception. *)
Definition error_message_of (e : exn) : string :=
  match e with
  | Exn ValueError m => m
  | Exn _ m => generic_failure_message m
  end.

(** ** The current application: [main.py] *)

Module Main.

(** The fixed text of the page (markup, style sheet and script) between the
    fields the f-string fills in.  No property below depends on it. *)
Record Template : Type := {
  alert_open : string;        (* up to the escaped message *)
  alert_close : string;
  upto_text_display : string;
  upto_file_display : string;
  upto_error_html : string;
  upto_text_checked : string;
  upto_file_checked : string;
  upto_conversation_text : string;
  upto_project_key : string;
  page_end : string
}.

Section FormPage.

Variable T : Template.

Definition error_html (error_message : option string) : string :=
  match error_message with
  | None | Some EmptyString => ""
  | Some m => alert_open T ++ html_escape m ++ alert_close T
  end.

Definition html_content
    (conversation_text project_key input_mode : string)
    (error_message : option string) : string :=
  let text_checked := if String.eqb input_mode "text" then "checked" else "" in
  let file_checked := if String.eqb input_mode "file" then "checked" else "" in
  let text_display := if String.eqb input_mode "text" then "flex" else "none" in
  let file_display := if String.eqb input_mode "file" then "flex" else "none" in
  String.concat EmptyString
    [upto_text_display T; text_display;
     upto_file_display T; file_display;
     upto_error_html T; error_html error_message;
     upto_text_checked T; text_checked;
     upto_file_checked T; file_checked;
     upto_conversation_text T; html_escape conversation_text;
     upto_project_key T; html_escape project_key;
     page_end T].

Definition render_form_page
    (conversation_text project_key input_mode : string)
    (error_message : option string) : response :=
  HTMLResponse
    (html_content conversation_text project_key input_mode error_message) 200.

(** [GET /] *)
Definition form_page : response := render_form_page "" "" "text" None.

End FormPage.

(** An uploaded file: its name and what [read()] returns. *)
Record UploadFile : Type := {
  filename : string;
  content : list Byte.byte
}.

Definition no_file_message : string :=
  "Please upload a .txt or .docx file when 'Attachment' is selected.".
Definition unsupported_file_message : string :=
  "Only .txt and .docx files are supported.".
Definition no_text_message : string :=
  "Please enter some text when 'Text' is selected.".

Section Handler.

Variable W : Platform.
Variable T : Template.

(** Input resolver: the first block of the handler's [try], which decides
    where the raw text comes from. *)
Definition resolve_raw_text
    (input_mode conversation_text : string)
    (upload_file : option UploadFile) : result string :=
  if String.eqb input_mode "file" then
    match upload_file with
    | None => Raise (Exn ValueError no_file_message)
    | Some f =>
        if String.eqb (filename f) "" then Raise (Exn ValueError no_file_message)
        else
          let name := lower (filename f) in
          let file_bytes := content f in
          if endswith name ".txt" then Ok (decode_utf8_ignore W file_bytes)
          else if endswith name ".docx" then
            paragraphs <- docx_paragraphs W file_bytes ;;
            Ok (join nl paragraphs)
          else Raise (Exn ValueError unsupported_file_message)
    end
  else
    let raw_text := strip conversation_text in
    if String.eqb raw_text "" then Raise (Exn ValueError no_text_message)
    else Ok raw_text.

(** Steps 2 to 4 of the handler, from the extractor's answer on. *)
Definition respond (data : value) (project_key : string) : result response :=
  data <- (if String.eqb project_key "" then Ok data
           else Py.setitem data "project_key" (VStr project_key)) ;;
  doc_bytes <- create_word_bytes_from_requirements W data ;;
  key <- Py.get data "project_key" (VStr "PROJECT") ;;
  Ok (attachment doc_bytes (Py.str key ++ "_requirements.docx")).

(** The body of the handler's [try]. *)
Definition pipeline
    (conversation_text project_key input_mode : string)
    (upload_file : option UploadFile) : result response :=
  raw_text <- resolve_raw_text input_mode conversation_text upload_file ;;
  data <- generate_requirements_from_text W raw_text ;;
  respond data project_key.

(** [POST /generate] *)
Definition generate_word
    (conversation_text project_key input_mode : string)
    (upload_file : option UploadFile) : response :=
  match pipeline conversation_text project_key input_mode upload_file with
  | Ok r => r
  | Raise e =>
      render_form_page T conversation_text project_key input_mode
        (Some (error_message_of e))
  end.

End Handler.

End Main.

(** ** The older application: [main - Copy.py]

    Its [generate_requirements_from_text] and
    [create_word_bytes_from_requirements] are, line for line, those of
    [main.py]; the form and the handler differ. *)

Module Copy.

Record Template : Type := {
  error_open : string;
  error_close : string;
  upto_error_html : string;
  upto_conversation_text : string;
  upto_project_key : string;
  page_end : string
}.

Section FormPage.

Variable T : Template.

Definition error_html (error_message : option string) : string :=
  match error_message with
  | None | Some EmptyString => ""
  | Some m => error_open T ++ html_escape m ++ error_close T
  end.

Definition html_content
    (conversation_text project_key : string)
    (error_message : option string) : string :=
  String.concat EmptyString
    [upto_error_html T; error_html error_message;
     upto_conversation_text T; html_escape conversation_text;
     upto_project_key T; html_escape project_key;
     page_end T].

Definition render_form_page
    (conversation_text project_key : string)
    (error_message : option string) : response :=
  HTMLResponse (html_content conversation_text project_key error_message) 200.

Definition form_page : response := render_form_page "" "" None.

End FormPage.

Section Handler.

Variable W : Platform.
Variable T : Template.

(** [project_key or ""] *)
Definition or_empty (project_key : option string) : string :=
  match project_key with
  | Some k => k
  | None => ""
  end.

Definition respond (data : value) (project_key : option string) : result response :=
  data <- (match project_key with
           | None | Some EmptyString => Ok data
           | Some k => Py.setitem data "project_key" (VStr k)
           end) ;;
  doc_bytes <- create_word_bytes_from_requirements W data ;;
  key <- Py.get data "project_key" (VStr "PROJECT") ;;
  Ok (attachment doc_bytes (Py.str key ++ "_requirements.docx")).

Definition pipeline
    (conversation_text : string) (project_key : option string) : result response :=
  data <- generate_requirements_from_text W conversation_text ;;
  respond data project_key.

(** [POST /generate] *)
Definition generate_word
    (conversation_text : string) (project_key : option string) : response :=
  match pipeline conversation_text project_key with
  | Ok r => r
  | Raise e =>
      render_form_page T conversation_text (or_empty project_key)
        (Some (error_message_of e))
  end.

End Handler.

End Copy.

(** ** Well-formed data and a sample platform *)


(** The data model of the requirements: every field may be missing; a field
    that is there has the type the extraction prompt asks for. *)
Definition is_str (v : value) : bool :=
  match v with VStr _ => true | _ => false end.

Definition is_str_list (v : value) : bool :=
  match v with VList l => forallb is_str l | _ => false end.

Definition is_optional_int (v : value) : bool :=
  match v with VInt _ | VNone => true | _ => false end.

Definition field_is (p : value -> bool) (d : dict) (k : string) : bool :=
  match Py.dict_get d k with
  | Some v => p v
  | None => true
  end.

Definition valid_requirement (v : value) : bool :=
  match v with
  | VDict d =>
      field_is is_str d "id" && field_is is_str d "issue_type"
      && field_is is_str d "summary" && field_is is_str d "description"
      && field_is is_str d "priority"
      && field_is is_optional_int d "story_points"
      && field_is is_str_list d "acceptance_criteria"
      && field_is is_str_list d "dependencies"
  | _ => false
  end.

Definition is_requirement_list (v : value) : bool :=
  match v with VList l => forallb valid_requirement l | _ => false end.

Definition valid_requirement_set (v : value) : bool :=
  match v with
  | VDict d =>
      field_is is_str d "project_key"
      && field_is is_requirement_list d "requirements"
  | _ => false
  end.

(** The requirements of a set, in their order. *)
Definition requirements_of (data : value) : list value :=
  match data with
  | VDict d =>
      match Py.dict_get d "requirements" with
      | Some (VList l) => l
      | _ => []
      end
  | _ => []
  end.

Definition is_page_break (b : block) : bool :=
  match b with PageBreak => true | _ => false end.

Definition is_heading1 (b : block) : bool :=
  match b with Heading _ 1 _ => true | _ => false end.

(** The text of the Python strings of a list. *)
Definition texts (l : list value) : list string :=
  List.map Py.str l.

(** A platform to run the model on: the credential, the answer of the
    service, what the parser makes of that answer and the paragraphs of the
    upload are given; the decoder is exact on ASCII bytes. *)
Definition sample_decode (data : list Byte.byte) : string :=
  string_of_list_ascii
    (List.map ascii_of_byte
       (List.filter (fun b => (Byte.to_nat b <? 128)%nat) data)).

Definition sample_platform
    (api_key : option string) (answer : result string)
    (loads : parsed) (paragraphs : result (list string)) : Platform :=
  {| getenv := fun name =>
       if String.eqb name "OPENAI_API_KEY" then api_key else None;
     responses_create := fun _ _ => answer;
     json_loads := fun _ => loads;
     decode_utf8_ignore := sample_decode;
     docx_paragraphs := fun _ => paragraphs;
     docx_save := fun doc => Ok [Byte.x50; Byte.x4b] |}.

Definition sample_main_template : Main.Template :=
  {| Main.alert_open := "<div class=alert-error><span>";
     Main.alert_close := "</span></div>";
     Main.upto_text_display := "<style>.text-section{display:";
     Main.upto_file_display := "}.file-section{display:";
     Main.upto_error_html := "}</style>";
     Main.upto_text_checked := "<form><input name=input_mode value=text ";
     Main.upto_file_checked := "><input name=input_mode value=file ";
     Main.upto_conversation_text := "><textarea name=conversation_text>";
     Main.upto_project_key := "</textarea><input name=project_key value='";
     Main.page_end := "'></form>" |}.

Definition sample_copy_template : Copy.Template :=
  {| Copy.error_open := "<div class=error>";
     Copy.error_close := "</div>";
     Copy.upto_error_html := "<body>";
     Copy.upto_conversation_text := "<form><textarea name=conversation_text>";
     Copy.upto_project_key := "</textarea><input name=project_key value='";
     Copy.page_end := "'></form></body>" |}.

(** Uploads to run the resolver on. *)
Definition notes_txt : Main.UploadFile :=
  {| Main.filename := "Notes.TXT"; Main.content := [Byte.x48; Byte.xff; Byte.x69] |}.
Definition plain_txt : Main.UploadFile :=
  {| Main.filename := "a.txt"; Main.content := [Byte.x48; Byte.x69] |}.

Definition idle_platform : Platform :=
  sample_platform None (Ok "") (Parsed VNone) (Ok ["First"; "Second"]).

(** A service answer cut off after its first line, and what [json.loads]
    says of it. *)
Definition cut_answer : string := "{" ++ nl.
Definition cut_answer_error : string :=
  "Expecting property name enclosed in double quotes: line 2 column 1 (char 2)".
Definition cut_answer_platform : Platform :=
  sample_platform (Some "sk-test") (Ok cut_answer)
    (JSONDecodeError cut_answer_error) (Ok []).

(** The parts of the section of a requirement [d], named for the statements
    below: its heading, the runs of its metadata paragraph before the story
    points, and what follows the dependencies paragraph. *)
Definition requirement_heading (d : dict) : block :=
  Heading (Py.str (Py.field d "id" (VStr "REQ-?")) ++ ": "
           ++ Py.str (Py.field d "summary" (VStr ""))) 1 [].

Definition type_and_priority_runs (d : dict) : list run :=
  [bold "Issue Type: "; Run (Py.field d "issue_type" (VStr "Story")) false None;
   bold "   |   Priority: ";
   Run (Py.field d "priority" (VStr "Medium")) false None].

Definition section_tail (d : dict) (criteria : list value) : list block :=
  ([Heading "Description" 2 [];
    Paragraph (Py.field d "description" (VStr "")) None [];
    Heading "Acceptance Criteria" 2 []]
   ++ List.map bullet criteria ++ [PageBreak])%list.

Definition dependencies_line (joined : string) : block :=
  Paragraph (VStr "") None [bold "Dependencies: "; plain joined].

(** [del d[k]], to speak of a requirement without one of its fields. *)
Definition dict_del (d : dict) (k : string) : dict :=
  List.filter (fun kv => negb (String.eqb (fst kv) k)) d.

(** Requirements to run the renderer on. *)
Definition null_points_requirement : dict :=
  [("id", VStr "REQ-1"); ("summary", VStr "Password reset via email");
   ("story_points", VNone)].

Definition password_reset_requirement : dict :=
  [("id", VStr "REQ-1"); ("issue_type", VStr "Story");
   ("summary", VStr "Password reset via email");
   ("description", VStr "As a user, I want to reset my password via email.");
   ("priority", VStr "Medium"); ("story_points", VInt 3);
   ("acceptance_criteria",
    VList [VStr "GIVEN a registered user WHEN they ask for a reset THEN an email is sent"]);
   ("dependencies", VList [])].

Definition dependent_requirement : dict :=
  [("id", VStr "REQ-3"); ("summary", VStr "Audit log");
   ("dependencies", VList [VStr "REQ-1"; VStr "REQ-2"])].

Definition bare_requirement : dict :=
  [("id", VStr "REQ-2"); ("summary", VStr "Session timeout")].

(** A block inside a section: neither a page break nor a level-1 heading. *)
Definition is_inner_block (b : block) : bool :=
  negb (is_page_break b) && negb (is_heading1 b).

(** [section] is the section of the requirement [req]: the level-1 heading
    of its id and summary, inner blocks, and a page break at the end. *)
Definition is_section_of (req : value) (section : list block) : Prop :=
  exists d body,
    req = VDict d
    /\ section = (requirement_heading d :: body ++ [PageBreak])%list
    /\ forallb is_inner_block body = true.

Definition password_reset_set : value :=
  VDict [("project_key", VStr "AUTH");
         ("requirements",
          VList [VDict password_reset_requirement; VDict bare_requirement;
                 VDict dependent_requirement])].

(** Platforms to run the handlers on: one without the credential, and one
    whose service answers [{}] whatever it is asked. *)
Definition no_key_platform : Platform :=
  sample_platform None (Ok "{}") (Parsed (VDict [])) (Ok []).

Definition empty_object_platform : Platform :=
  sample_platform (Some "sk-test") (Ok "{}") (Parsed (VDict [])) (Ok []).

(** Further samples: the same upload under an upper-case name, and a
    platform whose service cannot be reached. *)
Definition shouted_txt : Main.UploadFile :=
  {| Main.filename := "A.TXT"; Main.content := [Byte.x48; Byte.x69] |}.



Definition empty_key_platform : Platform :=
  sample_platform (Some "") (Ok "{}") (Parsed (VDict [])) (Ok []).

(** A paragraph in the bullet style of the acceptance criteria. *)
Definition is_bullet (b : block) : bool :=
  match b with
  | Paragraph _ (Some style) _ => String.eqb style "List Bullet"
  | _ => false
  end.

Definition is_dict (v : value) : bool :=
  match v with VDict _ => true | _ => false end.




Definition array_answer_platform : Platform :=
  sample_platform (Some "sk-test") (Ok "[]") (Parsed (VList [])) (Ok []).

(** The characters [html.escape] replaces. *)
Definition is_special (c : ascii) : bool :=
  Ascii.eqb c "&"%char || Ascii.eqb c "<"%char || Ascii.eqb c ">"%char
  || Ascii.eqb c "034"%char || Ascii.eqb c "'"%char.

Fixpoint no_special (s : string) : bool :=
  match s with
  | EmptyString => true
  | String c s' => negb (is_special c) && no_special s'
  end.

(** * Properties *)

(** ** Strings *)

Section StringFacts.

Lemma append_nil_r (s : string) : s ++ "" = s.
Proof. induction s as [|c s IH]; simpl; [reflexivity | now rewrite IH]. Qed.

Lemma append_assoc (a b c : string) : (a ++ b) ++ c = a ++ b ++ c.
Proof. induction a as [|x a IH]; simpl; [reflexivity | now rewrite IH]. Qed.

Lemma length_append (a b : string) :
  String.length (a ++ b) = String.length a + String.length b.
Proof. induction a as [|x a IH]; simpl; [reflexivity | now rewrite IH]. Qed.

Lemma contains_refl (s : string) : contains s s.
Proof. exists "", "". simpl. now rewrite append_nil_r. Qed.

Lemma contains_append_l (n a b : string) : contains n a -> contains n (a ++ b).
Proof.
  intros (pre & post & ->). exists pre, (post ++ b).
  now rewrite !append_assoc.
Qed.

Lemma contains_append_r (n a b : string) : contains n b -> contains n (a ++ b).
Proof.
  intros (pre & post & ->). exists (a ++ pre), post.
  now rewrite !append_assoc.
Qed.

Lemma contains_trans (a b c : string) : contains a b -> contains b c -> contains a c.
Proof.
  intros (p1 & q1 & ->) (p2 & q2 & ->). exists (p2 ++ p1), (q1 ++ q2).
  now rewrite !append_assoc.
Qed.

(** A piece of a concatenation is found in the whole. *)
Lemma contains_concat (n : string) (pieces : list string) :
  In n pieces -> contains n (String.concat "" pieces).
Proof.
  induction pieces as [|p ps IH]; intros Hin; [destruct Hin|].
  assert (E : String.concat "" (p :: ps) = p ++ String.concat "" ps).
  { destruct ps; simpl; [now rewrite append_nil_r | reflexivity]. }
  rewrite E. destruct Hin as [->|Hin].
  - apply contains_append_l, contains_refl.
  - apply contains_append_r, IH, Hin.
Qed.

(** *** [take] and [replace_nl] *)

Lemma length_take (n : nat) (s : string) : String.length (take n s) <= n.
Proof.
  revert s; induction n as [|n IH]; intros [|c s]; simpl; try lia.
  specialize (IH s). lia.
Qed.


Lemma length_map (f : ascii -> ascii) (s : string) :
  String.length (map f s) = String.length s.
Proof. induction s as [|c s IH]; simpl; [reflexivity | now rewrite IH]. Qed.


Lemma replace_nl_id (s : string) :
  mem "010"%char s = false -> replace_nl s = s.
Proof.
  unfold replace_nl. induction s as [|c s IH]; cbn [mem map]; [reflexivity|].
  rewrite (Ascii.eqb_sym "010"%char c).
  destruct (Ascii.eqb c "010"%char); cbn [orb]; intros H; [discriminate H|].
  now rewrite IH.
Qed.

Lemma replace_nl_no_nl (s : string) : mem "010"%char (replace_nl s) = false.
Proof.
  unfold replace_nl. induction s as [|c s IH]; cbn [mem map]; [reflexivity|].
  destruct (Ascii.eqb c "010"%char) eqn:E.
  - rewrite IH. reflexivity.
  - rewrite (Ascii.eqb_sym "010"%char c), E. exact IH.
Qed.

(** *** [strip] *)

Lemma lstrip_all_space (s : string) : all_space s = true -> lstrip s = "".
Proof.
  induction s as [|c s IH]; simpl; [reflexivity|].
  destruct (isspace c); simpl; [exact IH | discriminate].
Qed.

Lemma lstrip_not_all_space (s : string) :
  all_space s = false ->
  exists c r, lstrip s = String c r /\ isspace c = false.
Proof.
  induction s as [|c s IH]; simpl; [discriminate|].
  destruct (isspace c) eqn:E; simpl; [exact IH|].
  intros _. now exists c, s.
Qed.

Lemma rstrip_head (c : ascii) (r : string) :
  isspace c = false -> exists r', rstrip (String c r) = String c r'.
Proof.
  intros E. simpl. destruct (rstrip r); rewrite ?E; eauto.
Qed.

(** The trimmed text is empty exactly when the text is all white space. *)
Lemma strip_empty_iff (s : string) : strip s = "" <-> all_space s = true.
Proof.
  unfold strip. split.
  - intros H. destruct (all_space s) eqn:E; [reflexivity|].
    destruct (lstrip_not_all_space s E) as (c & r & Hl & Hc).
    rewrite Hl in H. destruct (rstrip_head c r Hc) as (r' & Hr).
    rewrite Hr in H. discriminate.
  - intros H. now rewrite lstrip_all_space.
Qed.

Lemma lstrip_fixed (c : ascii) (r : string) :
  isspace c = false -> lstrip (String c r) = String c r.
Proof. intros E. simpl. now rewrite E. Qed.

(** *** [lower] and [endswith] *)


Lemma drop_length_append (a b : string) : drop (String.length a) (a ++ b) = b.
Proof. induction a as [|x a IH]; simpl; [now destruct b | exact IH]. Qed.

Lemma endswith_append (a suffix : string) : endswith (a ++ suffix) suffix = true.
Proof.
  unfold endswith. rewrite length_append.
  replace (String.length a + String.length suffix - String.length suffix)
    with (String.length a) by lia.
  rewrite drop_length_append, String.eqb_refl, andb_true_r.
  apply Nat.leb_le. lia.
Qed.

Lemma length_drop (n : nat) (s : string) :
  String.length (drop n s) = String.length s - n.
Proof.
  revert s; induction n as [|n IH]; intros [|c s]; simpl; try reflexivity.
  apply IH.
Qed.






End StringFacts.

(** ** Input resolver *)

Section ResolverFacts.

Variable W : Platform.

(** Any mode other than ["file"] takes the text area. *)
Lemma resolve_text_branch (mode conversation_text : string) (upload : option Main.UploadFile) :
  String.eqb mode "file" = false ->
  Main.resolve_raw_text W mode conversation_text upload =
    if all_space conversation_text
    then Raise (ValidationError Main.no_text_message)
    else Ok (strip conversation_text).
Proof.
  intros Hm. unfold Main.resolve_raw_text. rewrite Hm.
  destruct (all_space conversation_text) eqn:E.
  - apply strip_empty_iff in E. now rewrite E.
  - destruct (String.eqb (strip conversation_text) "") eqn:S; [|reflexivity].
    apply String.eqb_eq, strip_empty_iff in S. congruence.
Qed.



End ResolverFacts.

(** C5.  In text mode a text area that is empty or all white space is
    refused with the validation error, and any other text resolves to the
    text without its leading and trailing white space. *)
Theorem text_mode_resolution
    (W : Platform) (conversation_text : string) (upload : option Main.UploadFile) :
  (all_space conversation_text = true ->
   Main.resolve_raw_text W "text" conversation_text upload =
     Raise (ValidationError Main.no_text_message))
  /\ (all_space conversation_text = false ->
      Main.resolve_raw_text W "text" conversation_text upload =
        Ok (strip conversation_text)).
Proof.
  rewrite (resolve_text_branch W "text" conversation_text upload eq_refl).
  split; intros ->; reflexivity.
Qed.

Lemma text_mode_resolution_witness :
  Main.resolve_raw_text (sample_platform None (Ok "") (Parsed VNone) (Ok []))
    "text" "  Users reset passwords  " None = Ok "Users reset passwords"
  /\ Main.resolve_raw_text (sample_platform None (Ok "") (Parsed VNone) (Ok []))
       "text" "   " None = Raise (ValidationError Main.no_text_message).
Proof.
  split.
  - apply (proj2 (text_mode_resolution
                    (sample_platform None (Ok "") (Parsed VNone) (Ok []))
                    "  Users reset passwords  " None)).
    reflexivity.
  - apply (proj1 (text_mode_resolution
                    (sample_platform None (Ok "") (Parsed VNone) (Ok []))
                    "   " None)).
    reflexivity.
Defined.



(** The upper-case extension is accepted too, and the byte that is not
    UTF-8 is dropped by the decoder. *)
Example resolve_upper_case_txt :
  Main.resolve_raw_text idle_platform "file" "ignored" (Some notes_txt) = Ok "Hi".
Proof. reflexivity. Qed.

(** ** Requirement extractor *)

Lemma mem_append (c : ascii) (a b : string) :
  mem c (a ++ b) = mem c a || mem c b.
Proof.
  induction a as [|x a IH]; cbn [mem append]; [reflexivity|].
  now rewrite IH, orb_assoc.
Qed.

Lemma contains_mem (c : ascii) (n h : string) :
  contains n h -> mem c n = true -> mem c h = true.
Proof.
  intros (pre & post & ->) H.
  now rewrite !mem_append, H, orb_true_r.
Qed.

Lemma invalid_json_message_parts (parser_error json_text : string) :
  contains parser_error (invalid_json_message parser_error json_text)
  /\ contains (replace_nl (take 200 json_text))
       (invalid_json_message parser_error json_text).
Proof.
  unfold invalid_json_message. split.
  - do 2 apply contains_append_r. apply contains_append_l, contains_refl.
  - do 4 apply contains_append_r. apply contains_refl.
Qed.

Section ExtractorFacts.

Variable W : Platform.
Variable raw_text : string.

Lemma extract_no_credential :
  getenv W "OPENAI_API_KEY" = None ->
  generate_requirements_from_text W raw_text = Raise ConfigurationError.
Proof. intros H. unfold generate_requirements_from_text. now rewrite H. Qed.

(** The extractor once the credential is there and the service answered. *)
Lemma extract_answered (api_key json_text : string) :
  getenv W "OPENAI_API_KEY" = Some api_key -> api_key <> "" ->
  responses_create W api_key (extraction_request raw_text) = Ok json_text ->
  generate_requirements_from_text W raw_text =
    if all_space json_text then Raise EmptyResponseError
    else match json_loads W json_text with
         | Parsed data => Ok data
         | JSONDecodeError e =>
             Raise (SchemaError (invalid_json_message e json_text))
         end.
Proof.
  intros Hk Hn Ha. unfold generate_requirements_from_text.
  rewrite Hk. destruct api_key as [|c k]; [congruence|].
  rewrite Ha. cbn [bind].
  destruct (all_space json_text) eqn:E.
  - apply strip_empty_iff in E. rewrite E. now rewrite orb_true_r.
  - assert (S : String.eqb (strip json_text) "" = false).
    { apply String.eqb_neq. intros S. apply strip_empty_iff in S. congruence. }
    assert (N : String.eqb json_text "" = false).
    { apply String.eqb_neq. intros ->. discriminate E. }
    now rewrite S, N.
Qed.

End ExtractorFacts.

(** C2, as the program has it.  Without the credential the extractor fails
    with the configuration error.  With it, and an answer from the service:
    an answer that is empty or all white space fails with the empty-response
    error; an answer the parser refuses fails with the schema error, whose
    message holds the parser's error and the first 200 characters of the
    answer with every newline turned into a space; any other answer gives the
    parsed value. *)
Theorem extraction_outcomes (W : Platform) (raw_text : string) :
  (getenv W "OPENAI_API_KEY" = None ->
   generate_requirements_from_text W raw_text = Raise ConfigurationError)
  /\ (forall api_key json_text,
       getenv W "OPENAI_API_KEY" = Some api_key -> api_key <> "" ->
       responses_create W api_key (extraction_request raw_text) = Ok json_text ->
       (all_space json_text = true ->
        generate_requirements_from_text W raw_text = Raise EmptyResponseError)
       /\ (all_space json_text = false ->
           forall e, json_loads W json_text = JSONDecodeError e ->
           exists msg preview,
             generate_requirements_from_text W raw_text = Raise (SchemaError msg)
             /\ preview = replace_nl (take 200 json_text)
             /\ String.length preview <= 200
             /\ contains e msg /\ contains preview msg)
       /\ (all_space json_text = false ->
           forall data, json_loads W json_text = Parsed data ->
           generate_requirements_from_text W raw_text = Ok data)).
Proof.
  split; [apply extract_no_credential|].
  intros api_key json_text Hk Hn Ha.
  rewrite (extract_answered W raw_text api_key json_text Hk Hn Ha).
  split; [|split].
  - now intros ->.
  - intros -> e ->. exists (invalid_json_message e json_text), (replace_nl (take 200 json_text)).
    split; [reflexivity|]. split; [reflexivity|]. split.
    + unfold replace_nl. rewrite length_map. apply length_take.
    + apply invalid_json_message_parts.
  - now intros -> data ->.
Qed.

Lemma extraction_outcomes_witness :
  exists msg,
    generate_requirements_from_text cut_answer_platform "notes" =
      Raise (SchemaError msg)
    /\ contains cut_answer_error msg /\ contains "{ " msg.
Proof.
  pose proof (proj2 (extraction_outcomes cut_answer_platform "notes")
                "sk-test" cut_answer eq_refl ltac:(discriminate) eq_refl) as H.
  destruct (proj1 (proj2 H) eq_refl cut_answer_error eq_refl)
    as (msg & preview & Hr & Hp & _ & He & Hc).
  exists msg. subst preview. repeat split; assumption.
Defined.

(** C2 as it is worded fails: the message does not hold the first characters
    of the answer themselves once one of them is a newline. *)
Lemma extraction_preview_counterexample :
  generate_requirements_from_text cut_answer_platform "notes" =
    Raise (SchemaError (invalid_json_message cut_answer_error cut_answer))
  /\ take 200 cut_answer = cut_answer
  /\ ~ contains (take 200 cut_answer)
        (invalid_json_message cut_answer_error cut_answer).
Proof.
  split; [reflexivity|]. split; [reflexivity|].
  intros H. apply (contains_mem "010"%char) in H; [|reflexivity].
  vm_compute in H. discriminate H.
Qed.

(** ** Document renderer *)

Section RendererFacts.

(** The loop body on a [dict], with the parts of its section named. *)
Lemma render_requirement_dict (d : dict) :
  render_requirement (VDict d) =
    (deps <- dependencies_para (Py.field d "dependencies" (VList [])) ;;
     criteria <- Py.iter (Py.field d "acceptance_criteria" (VList [])) ;;
     Ok (requirement_heading d
         :: Paragraph (VStr "") None
              (type_and_priority_runs d
               ++ story_points_runs (Py.field d "story_points" VNone))
         :: deps ++ section_tail d criteria)%list).
Proof. reflexivity. Qed.

Lemma join_items_strs (i : nat) (ids : list string) :
  Py.join_items i (List.map VStr ids) = Ok ids.
Proof.
  revert i; induction ids as [|x ids IH]; intros i; cbn [List.map Py.join_items];
    [reflexivity|].
  now rewrite IH.
Qed.

Lemma is_str_list_strs (l : list value) :
  forallb is_str l = true -> l = List.map VStr (texts l).
Proof.
  induction l as [|v l IH]; cbn [forallb texts List.map]; [reflexivity|].
  intros H. apply andb_true_iff in H as [Hv Hl].
  destruct v; try discriminate Hv. cbn [Py.str]. f_equal. now apply IH.
Qed.

Lemma dependencies_para_strs (ids : list string) :
  ids <> [] ->
  dependencies_para (VList (List.map VStr ids)) =
    Ok [dependencies_line (join ", " ids)].
Proof.
  intros Hn. unfold dependencies_para, Py.join.
  destruct ids as [|x ids]; [congruence|].
  cbn [Py.truthy List.map Py.iter bind].
  change (VStr x :: List.map VStr ids) with (List.map VStr (x :: ids)).
  now rewrite join_items_strs.
Qed.

Lemma field_absent (d : dict) (k : string) (default : value) :
  Py.dict_get d k = None -> Py.field d k default = default.
Proof. unfold Py.field. now intros ->. Qed.

Lemma field_present (d : dict) (k : string) (default v : value) :
  Py.dict_get d k = Some v -> Py.field d k default = v.
Proof. unfold Py.field. now intros ->. Qed.

Lemma dict_get_del (d : dict) (k k' : string) :
  Py.dict_get (dict_del d k) k' =
    if String.eqb k k' then None else Py.dict_get d k'.
Proof.
  induction d as [|[k0 v0] d IH]; cbn [dict_del List.filter Py.dict_get fst].
  - now destruct (String.eqb k k').
  - fold (dict_del d k). destruct (String.eqb k0 k) eqn:E0; cbn [negb].
    + apply String.eqb_eq in E0. subst k0. rewrite IH.
      now destruct (String.eqb k k').
    + cbn [Py.dict_get]. rewrite IH.
      destruct (String.eqb k0 k') eqn:E1; [|reflexivity].
      apply String.eqb_eq in E1. subst k'. rewrite String.eqb_sym.
      now rewrite E0.
Qed.

Lemma field_del_other (d : dict) (k k' : string) (default : value) :
  String.eqb k k' = false ->
  Py.field (dict_del d k) k' default = Py.field d k' default.
Proof. intros H. unfold Py.field. now rewrite dict_get_del, H. Qed.

End RendererFacts.

(** C7, as the program has it.  For a requirement whose dependencies and
    acceptance criteria render, the metadata paragraph has the issue type
    and the priority, then: nothing more when [story_points] is missing or
    is [None]; the story-points label and [str] of the value when it is there
    and is not [None]. *)
Theorem story_points_segment
    (d : dict) (deps : list block) (criteria : list value) :
  dependencies_para (Py.field d "dependencies" (VList [])) = Ok deps ->
  Py.iter (Py.field d "acceptance_criteria" (VList [])) = Ok criteria ->
  exists segment,
    render_requirement (VDict d) =
      Ok (requirement_heading d
          :: Paragraph (VStr "") None (type_and_priority_runs d ++ segment)
          :: deps ++ section_tail d criteria)%list
    /\ (Py.dict_get d "story_points" = None -> segment = [])
    /\ (Py.dict_get d "story_points" = Some VNone -> segment = [])
    /\ (forall v, Py.dict_get d "story_points" = Some v -> v <> VNone ->
        segment = [bold "   |   Story Points: "; plain (Py.str v)]).
Proof.
  intros Hd Hc. exists (story_points_runs (Py.field d "story_points" VNone)).
  split; [|split; [|split]].
  - rewrite render_requirement_dict, Hd, Hc. reflexivity.
  - intros H. now rewrite (field_absent _ _ _ H).
  - intros H. now rewrite (field_present _ _ _ _ H).
  - intros v H Hv. rewrite (field_present _ _ _ _ H).
    destruct v; try reflexivity. congruence.
Qed.

Lemma story_points_segment_witness :
  exists section,
    render_requirement (VDict password_reset_requirement) = Ok section
    /\ nth_error section 1 =
         Some (Paragraph (VStr "") None
                 [bold "Issue Type: "; plain "Story";
                  bold "   |   Priority: "; plain "Medium";
                  bold "   |   Story Points: "; plain "3"]).
Proof.
  destruct (story_points_segment password_reset_requirement [] _ eq_refl eq_refl)
    as (segment & Hr & _ & _ & Hv).
  rewrite (Hv (VInt 3) eq_refl ltac:(discriminate)) in Hr.
  eexists. split; [exact Hr | reflexivity].
Defined.

(** C7 as it is worded fails: a [story_points] that is there with the value
    [None] (JSON [null]) gets no segment. *)
Lemma story_points_null_counterexample :
  Py.dict_get null_points_requirement "story_points" = Some VNone
  /\ render_requirement (VDict null_points_requirement) =
       Ok [Heading "REQ-1: Password reset via email" 1 [];
           Paragraph (VStr "") None
             [bold "Issue Type: "; plain "Story";
              bold "   |   Priority: "; plain "Medium"];
           Heading "Description" 2 [];
           Paragraph (VStr "") None [];
           Heading "Acceptance Criteria" 2 [];
           PageBreak].
Proof. split; reflexivity. Qed.



(** C10.  A [dependencies] field that is there and is the empty list renders
    as if the field were missing: the section is that of the requirement
    without the field, and it has no dependencies paragraph. *)
Theorem empty_dependencies_as_absent (d : dict) :
  Py.dict_get d "dependencies" = Some (VList []) ->
  render_requirement (VDict d) =
    render_requirement (VDict (dict_del d "dependencies"))
  /\ forall criteria,
       Py.iter (Py.field d "acceptance_criteria" (VList [])) = Ok criteria ->
       render_requirement (VDict d) =
         Ok (requirement_heading d
             :: Paragraph (VStr "") None
                  (type_and_priority_runs d
                   ++ story_points_runs (Py.field d "story_points" VNone))
             :: section_tail d criteria)%list.
Proof.
  intros H. split.
  - rewrite !render_requirement_dict.
    unfold requirement_heading, type_and_priority_runs, section_tail.
    assert (E : Py.field (dict_del d "dependencies") "dependencies" (VList [])
                = VList []).
    { unfold Py.field. now rewrite dict_get_del. }
    rewrite E, (field_present _ _ _ _ H).
    rewrite (field_del_other d "dependencies" "id"),
      (field_del_other d "dependencies" "summary"),
      (field_del_other d "dependencies" "issue_type"),
      (field_del_other d "dependencies" "priority"),
      (field_del_other d "dependencies" "story_points"),
      (field_del_other d "dependencies" "description"),
      (field_del_other d "dependencies" "acceptance_criteria")
      by reflexivity.
    reflexivity.
  - intros criteria Hc.
    rewrite render_requirement_dict, (field_present _ _ _ _ H), Hc.
    reflexivity.
Qed.

Lemma empty_dependencies_as_absent_witness :
  render_requirement (VDict password_reset_requirement) =
    render_requirement (VDict (dict_del password_reset_requirement "dependencies"))
  /\ exists section,
       render_requirement (VDict password_reset_requirement) = Ok section
       /\ nth_error section 2 = Some (Heading "Description" 2 []).
Proof.
  destruct (empty_dependencies_as_absent password_reset_requirement eq_refl)
    as [Hsame Hshape].
  split; [exact Hsame|].
  eexists. split; [apply (Hshape _ eq_refl) | reflexivity].
Defined.

Section SectionFacts.

Lemma str_list_field (d : dict) (k : string) :
  field_is is_str_list d k = true ->
  exists ids, Py.field d k (VList []) = VList (List.map VStr ids).
Proof.
  unfold field_is, Py.field. destruct (Py.dict_get d k) as [v|].
  - destruct v; try discriminate. intros H. exists (texts items).
    f_equal. now apply is_str_list_strs.
  - intros _. now exists [].
Qed.

Lemma dependencies_para_inner (ids : list string) :
  exists deps,
    dependencies_para (VList (List.map VStr ids)) = Ok deps
    /\ forallb is_inner_block deps = true.
Proof.
  destruct ids as [|x ids].
  - now exists [].
  - exists [dependencies_line (join ", " (x :: ids))]. split; [|reflexivity].
    now apply dependencies_para_strs.
Qed.

Lemma bullets_inner (criteria : list value) :
  forallb is_inner_block (List.map bullet criteria) = true.
Proof. induction criteria as [|c l IH]; [reflexivity | exact IH]. Qed.

(** A well-formed requirement renders, and to its section. *)
Lemma valid_requirement_section (req : value) :
  valid_requirement req = true ->
  exists section, render_requirement req = Ok section /\ is_section_of req section.
Proof.
  destruct req as [| | | | |d]; try discriminate. cbn [valid_requirement].
  intros H. repeat (apply andb_true_iff in H as [H ?]).
  destruct (str_list_field d "dependencies") as (ids & Hd); [assumption|].
  destruct (str_list_field d "acceptance_criteria") as (crit & Hc); [assumption|].
  destruct (dependencies_para_inner ids) as (deps & Hp & Hi).
  rewrite render_requirement_dict, Hd, Hp, Hc. cbn [bind Py.iter].
  eexists. split; [reflexivity|].
  exists d,
    (Paragraph (VStr "") None
       (type_and_priority_runs d
        ++ story_points_runs (Py.field d "story_points" VNone))
     :: deps
        ++ [Heading "Description" 2 [];
            Paragraph (Py.field d "description" (VStr "")) None [];
            Heading "Acceptance Criteria" 2 []]
        ++ List.map bullet (List.map VStr crit))%list.
  split; [reflexivity|]. split.
  - unfold section_tail. cbn [app]. do 2 f_equal.
    rewrite <- !app_assoc. reflexivity.
  - cbn [forallb]. rewrite !forallb_app, Hi, bullets_inner. reflexivity.
Qed.

Lemma valid_requirements_sections (reqs : list value) :
  forallb valid_requirement reqs = true ->
  exists sections,
    mapM render_requirement reqs = Ok sections
    /\ Forall2 is_section_of reqs sections.
Proof.
  induction reqs as [|r reqs IH]; cbn [forallb mapM].
  - intros _. exists []. split; [reflexivity | constructor].
  - intros H. apply andb_true_iff in H as [Hr Hl].
    destruct (valid_requirement_section r Hr) as (s & Hs & Hsec).
    destruct (IH Hl) as (ss & Hss & Hall).
    exists (s :: ss). rewrite Hs, Hss. split; [reflexivity | now constructor].
Qed.

Lemma Forall2_same_length {A B : Type} (R : A -> B -> Prop) (l : list A) (l' : list B) :
  Forall2 R l l' -> List.length l = List.length l'.
Proof. induction 1; cbn; congruence. Qed.

End SectionFacts.

(** C1.  A well-formed requirement set renders to the front matter followed
    by one section for each requirement, in the order of the requirements:
    each section opens with the level-1 heading of the id and the summary and
    closes with a page break, and has neither of the two in between. *)
Theorem requirement_sections (data : value) :
  valid_requirement_set data = true ->
  exists project_key sections,
    build_document data = Ok (front_matter project_key ++ List.concat sections)%list
    /\ List.length sections = List.length (requirements_of data)
    /\ Forall2 is_section_of (requirements_of data) sections.
Proof.
  destruct data as [| | | | |d]; try discriminate. cbn [valid_requirement_set].
  intros H. apply andb_true_iff in H as [_ Hr].
  assert (Hreqs : Py.field d "requirements" (VList []) = VList (requirements_of (VDict d))
                  /\ forallb valid_requirement (requirements_of (VDict d)) = true).
  { unfold field_is in Hr. unfold Py.field, requirements_of.
    destruct (Py.dict_get d "requirements") as [v|]; [|now split].
    destruct v; try discriminate Hr. now split. }
  destruct Hreqs as [Hf Hv].
  destruct (valid_requirements_sections _ Hv) as (sections & Hm & Hall).
  exists (Py.field d "project_key" (VStr "PROJECT")), sections.
  split; [|split].
  - unfold build_document. cbn [Py.get bind]. rewrite Hf. cbn [Py.iter bind].
    now rewrite Hm.
  - symmetry. exact (Forall2_same_length _ _ _ Hall).
  - exact Hall.
Qed.

Lemma requirement_sections_witness :
  exists project_key sections,
    build_document password_reset_set =
      Ok (front_matter project_key ++ List.concat sections)%list
    /\ List.length sections = 3
    /\ Forall2 is_section_of
         [VDict password_reset_requirement; VDict bare_requirement;
          VDict dependent_requirement] sections.
Proof.
  destruct (requirement_sections password_reset_set eq_refl)
    as (project_key & sections & Hb & Hl & Hall).
  exists project_key, sections. split; [exact Hb|]. split; [exact Hl | exact Hall].
Defined.

(** The document of the sample set: four page breaks (one closes the front
    matter) and, after the overview, the three headings in the order of the
    requirements. *)
Example sample_set_headings :
  exists doc,
    build_document password_reset_set = Ok doc
    /\ List.length (List.filter is_page_break doc) = 4
    /\ List.map (fun b => match b with Heading t _ _ => t | _ => "" end)
         (List.filter is_heading1 doc) =
       ["Overview"; "REQ-1: Password reset via email";
        "REQ-2: Session timeout"; "REQ-3: Audit log"].
Proof. eexists. split; [reflexivity|]. split; reflexivity. Qed.

(** ** POST handler *)

Section HandlerFacts.



(** The page shows the text, the project key and the error it was given. *)
Lemma main_page_carries (T : Main.Template)
    (conversation_text project_key input_mode : string)
    (error_message : option string) :
  let page :=
    Main.html_content T conversation_text project_key input_mode error_message in
  contains (html_escape conversation_text) page
  /\ contains (html_escape project_key) page
  /\ contains (Main.error_html T error_message) page.
Proof.
  cbv zeta. unfold Main.html_content.
  repeat split; apply contains_concat; cbn [In]; tauto.
Qed.

Lemma generic_failure_message_nonempty (details : string) :
  generic_failure_message details <> "".
Proof. discriminate. Qed.

Variable W : Platform.

(** An error of any of the three stages is the error of the [try] body. *)
Lemma main_pipeline_stage_errors
    (conversation_text project_key input_mode : string)
    (upload : option Main.UploadFile) (e : exn) :
  Main.resolve_raw_text W input_mode conversation_text upload = Raise e
  \/ (exists raw_text,
        Main.resolve_raw_text W input_mode conversation_text upload = Ok raw_text
        /\ generate_requirements_from_text W raw_text = Raise e)
  \/ (exists raw_text data,
        Main.resolve_raw_text W input_mode conversation_text upload = Ok raw_text
        /\ generate_requirements_from_text W raw_text = Ok data
        /\ Main.respond W data project_key = Raise e) <->
  Main.pipeline W conversation_text project_key input_mode upload = Raise e.
Proof.
  unfold Main.pipeline. split.
  - intros [H | [(raw & Hr & H) | (raw & data & Hr & Hd & H)]].
    + now rewrite H.
    + now rewrite Hr; cbn [bind]; rewrite H.
    + now rewrite Hr; cbn [bind]; rewrite Hd.
  - destruct (Main.resolve_raw_text W input_mode conversation_text upload)
      as [raw|e0] eqn:Hr; cbn [bind]; [|intros [= ->]; now left].
    destruct (generate_requirements_from_text W raw) as [data|e1] eqn:Hd;
      cbn [bind].
    + intros H. right. right. now exists raw, data.
    + intros [= ->]. right. left. now exists raw.
Qed.

(** The handler always answers: with what the [try] body returns, or with
    the form. *)
Lemma main_generate_word_answers (T : Main.Template)
    (conversation_text project_key input_mode : string)
    (upload : option Main.UploadFile) :
  (exists r,
      Main.pipeline W conversation_text project_key input_mode upload = Ok r
      /\ Main.generate_word W T conversation_text project_key input_mode upload = r)
  \/ (exists e,
        Main.pipeline W conversation_text project_key input_mode upload = Raise e
        /\ Main.generate_word W T conversation_text project_key input_mode upload =
             Main.render_form_page T conversation_text project_key input_mode
               (Some (error_message_of e))).
Proof.
  unfold Main.generate_word.
  destruct (Main.pipeline W conversation_text project_key input_mode upload)
    as [r|e]; [left | right]; eauto.
Qed.

End HandlerFacts.

(** C3.  Whatever exception the [try] body of the POST handler ends with,
    the answer is the form page with status 200; the page holds the escaped
    conversation text and project key as they were sent, and the alert block
    with the escaped message: the text of a [ValueError], or the fixed
    sentence followed by the text of any other exception. *)
Theorem errors_rerender_form
    (W : Platform) (T : Main.Template)
    (conversation_text project_key input_mode : string)
    (upload : option Main.UploadFile) (e : exn) :
  Main.pipeline W conversation_text project_key input_mode upload = Raise e ->
  exists page,
    Main.generate_word W T conversation_text project_key input_mode upload =
      HTMLResponse page 200
    /\ page = Main.html_content T conversation_text project_key input_mode
                (Some (error_message_of e))
    /\ contains (html_escape conversation_text) page
    /\ contains (html_escape project_key) page
    /\ (error_message_of e <> "" ->
        contains (Main.alert_open T ++ html_escape (error_message_of e)
                  ++ Main.alert_close T) page)
    /\ (is_ValueError e = true -> error_message_of e = exn_msg e)
    /\ (is_ValueError e = false ->
        error_message_of e = generic_failure_message (exn_msg e)
        /\ error_message_of e <> "").
Proof.
  intros H. eexists. split; [|split; [reflexivity|]].
  - unfold Main.generate_word. rewrite H. reflexivity.
  - destruct (main_page_carries T conversation_text project_key input_mode
                (Some (error_message_of e))) as (Hc & Hk & He).
    split; [exact Hc|]. split; [exact Hk|]. split; [|split].
    + intros Hn. unfold Main.error_html in He.
      destruct (error_message_of e); [congruence | exact He].
    + destruct e as [[] m]; cbn; congruence.
    + destruct e as [[] m]; cbn; try discriminate; intros _;
        (split; [reflexivity | apply generic_failure_message_nonempty]).
Qed.

Lemma errors_rerender_form_witness :
  exists page,
    Main.generate_word no_key_platform sample_main_template
      "Users <reset> passwords" "AUTH" "text" None = HTMLResponse page 200
    /\ contains "Users &lt;reset&gt; passwords" page
    /\ contains "AUTH" page
    /\ contains ("<div class=alert-error><span>" ++ missing_key_message
                 ++ "</span></div>") page.
Proof.
  destruct (errors_rerender_form no_key_platform sample_main_template
              "Users <reset> passwords" "AUTH" "text" None
              ConfigurationError eq_refl)
    as (page & Hg & _ & Hc & Hk & He & _).
  exists page. split; [exact Hg|]. split; [exact Hc|]. split; [exact Hk|].
  apply He. discriminate.
Defined.



(** ** The older handler against the current one *)

Section TwoHandlers.

Variable W : Platform.

(** Steps 2 to 4 are the same in the two files: a missing project key of
    the older form is the empty one of the current form. *)
Lemma respond_same (data : value) (project_key : option string) :
  Main.respond W data (Copy.or_empty project_key) = Copy.respond W data project_key.
Proof.
  unfold Main.respond, Copy.respond.
  destruct project_key as [[|c k]|]; reflexivity.
Qed.

(** In text mode the current [try] body is the older one on the trimmed
    text, once that text is not empty. *)
Lemma text_pipeline_same
    (conversation_text : string) (project_key : option string)
    (upload : option Main.UploadFile) :
  all_space conversation_text = false ->
  Main.pipeline W conversation_text (Copy.or_empty project_key) "text" upload =
    Copy.pipeline W (strip conversation_text) project_key.
Proof.
  intros H. unfold Main.pipeline, Copy.pipeline.
  rewrite (resolve_text_branch W "text" conversation_text upload eq_refl), H.
  cbn [bind].
  destruct (generate_requirements_from_text W (strip conversation_text));
    cbn [bind]; [apply respond_same | reflexivity].
Qed.

End TwoHandlers.

(** C9, as the programs have it.  For a text-mode submission whose text is
    not blank, the current handler does with the text what the older handler
    does with the trimmed text: when the older [try] body returns a download
    both answer with it, and when it ends with an exception each answers with
    its own form page, status 200, showing the same message, the text it was
    sent and the same project key. *)
Theorem text_mode_handlers_agree
    (W : Platform) (Tm : Main.Template) (Tc : Copy.Template)
    (conversation_text : string) (project_key : option string)
    (upload : option Main.UploadFile) :
  all_space conversation_text = false ->
  (forall r,
      Copy.pipeline W (strip conversation_text) project_key = Ok r ->
      Copy.generate_word W Tc (strip conversation_text) project_key = r
      /\ Main.generate_word W Tm conversation_text (Copy.or_empty project_key)
           "text" upload = r)
  /\ (forall e,
      Copy.pipeline W (strip conversation_text) project_key = Raise e ->
      Copy.generate_word W Tc (strip conversation_text) project_key =
        Copy.render_form_page Tc (strip conversation_text)
          (Copy.or_empty project_key) (Some (error_message_of e))
      /\ Main.generate_word W Tm conversation_text (Copy.or_empty project_key)
           "text" upload =
         Main.render_form_page Tm conversation_text (Copy.or_empty project_key)
           "text" (Some (error_message_of e))).
Proof.
  intros H. split; intros x Hx; unfold Copy.generate_word, Main.generate_word;
    rewrite (text_pipeline_same W conversation_text project_key upload H), Hx;
    split; reflexivity.
Qed.

Lemma text_mode_handlers_agree_witness :
  Copy.generate_word empty_object_platform sample_copy_template
    "Users reset passwords" (Some "AUTH") =
    attachment [Byte.x50; Byte.x4b] "AUTH_requirements.docx"
  /\ Main.generate_word empty_object_platform sample_main_template
       "  Users reset passwords  " "AUTH" "text" None =
     attachment [Byte.x50; Byte.x4b] "AUTH_requirements.docx".
Proof.
  apply (proj1 (text_mode_handlers_agree empty_object_platform
                  sample_main_template sample_copy_template
                  "  Users reset passwords  " (Some "AUTH") None eq_refl)).
  reflexivity.
Defined.

(** C9 as it is worded fails: sent one blank, the older handler asks the
    service and answers with a download, and the current one answers with the
    form and its validation message. *)
Lemma blank_text_counterexample :
  Copy.generate_word empty_object_platform sample_copy_template " " None =
    attachment [Byte.x50; Byte.x4b] "PROJECT_requirements.docx"
  /\ Main.generate_word empty_object_platform sample_main_template
       " " "" "text" None =
     Main.render_form_page sample_main_template " " "" "text"
       (Some Main.no_text_message)
  /\ Copy.generate_word empty_object_platform sample_copy_template " " None <>
     Main.generate_word empty_object_platform sample_main_template
       " " "" "text" None.
Proof.
  split; [reflexivity|]. split; [reflexivity|]. discriminate.
Qed.

(** * Further properties *)

(** ** Input resolver *)

Section StripFacts.

Lemma lstrip_head (s : string) :
  lstrip s = "" \/ exists c r, lstrip s = String c r /\ isspace c = false.
Proof.
  induction s as [|c s IH]; cbn [lstrip]; [now left|].
  destruct (isspace c) eqn:E; [exact IH|]. right. now exists c, s.
Qed.

Lemma rstrip_idempotent (s : string) : rstrip (rstrip s) = rstrip s.
Proof.
  induction s as [|c s IH]; [reflexivity|]. cbn [rstrip].
  destruct (rstrip s) as [|c1 r1] eqn:E.
  - destruct (isspace c) eqn:Ec; [reflexivity|]. cbn [rstrip]. now rewrite Ec.
  - cbn [rstrip]. cbn [rstrip] in IH. now rewrite IH.
Qed.

Lemma lstrip_strip (s : string) : lstrip (strip s) = strip s.
Proof.
  unfold strip. destruct (lstrip_head s) as [-> | (c & r & -> & Hc)];
    [reflexivity|].
  destruct (rstrip_head c r Hc) as (r' & ->). now apply lstrip_fixed.
Qed.

Lemma rstrip_strip (s : string) : rstrip (strip s) = strip s.
Proof. unfold strip. apply rstrip_idempotent. Qed.

Lemma strip_idempotent (s : string) : strip (strip s) = strip s.
Proof. unfold strip at 1. now rewrite lstrip_strip, rstrip_strip. Qed.

Lemma lower_empty (s : string) : lower s = "" <-> s = "".
Proof.
  unfold lower. destruct s; cbn [map]; split; intros H;
    try reflexivity; discriminate H.
Qed.

End StripFacts.

(** X1.  Each mode looks at its own input only: any input mode that is not
    ["file"] is handled as text mode whatever upload comes with it, and file
    mode gives the same result whatever the text area holds. *)
Theorem each_mode_reads_its_own_input
    (W : Platform) (input_mode conversation_text other_text : string)
    (upload : option Main.UploadFile) :
  (input_mode <> "file" ->
   Main.resolve_raw_text W input_mode conversation_text upload =
     Main.resolve_raw_text W "text" conversation_text None)
  /\ Main.resolve_raw_text W "file" conversation_text upload =
       Main.resolve_raw_text W "file" other_text upload.
Proof.
  split; [|reflexivity].
  intros H. apply String.eqb_neq in H.
  now rewrite (resolve_text_branch W input_mode conversation_text upload H),
    (resolve_text_branch W "text" conversation_text None eq_refl).
Qed.

Lemma each_mode_reads_its_own_input_witness :
  Main.resolve_raw_text idle_platform "FILE" " notes " (Some plain_txt) =
    Main.resolve_raw_text idle_platform "text" " notes " None.
Proof.
  apply (proj1 (each_mode_reads_its_own_input idle_platform "FILE" " notes " ""
                  (Some plain_txt))).
  discriminate.
Defined.

(** X2.  What text mode resolves to is never blank and is already trimmed:
    it is the trimmed text area, it has a character that is not white space,
    and trimming it on either side changes nothing. *)
Theorem text_mode_result_is_trimmed
    (W : Platform) (input_mode conversation_text raw_text : string)
    (upload : option Main.UploadFile) :
  input_mode <> "file" ->
  Main.resolve_raw_text W input_mode conversation_text upload = Ok raw_text ->
  raw_text = strip conversation_text
  /\ all_space raw_text = false
  /\ lstrip raw_text = raw_text /\ rstrip raw_text = raw_text
  /\ strip raw_text = raw_text.
Proof.
  intros Hm. apply String.eqb_neq in Hm.
  rewrite (resolve_text_branch W input_mode conversation_text upload Hm).
  destruct (all_space conversation_text) eqn:E; [discriminate|].
  intros [= <-]. split; [reflexivity|]. split; [|split; [|split]].
  - destruct (all_space (strip conversation_text)) eqn:A; [|reflexivity].
    apply strip_empty_iff in A. rewrite strip_idempotent in A.
    apply strip_empty_iff in A. congruence.
  - apply lstrip_strip.
  - apply rstrip_strip.
  - apply strip_idempotent.
Qed.

Lemma text_mode_result_is_trimmed_witness :
  all_space "a  b" = false /\ strip "a  b" = "a  b".
Proof.
  destruct (text_mode_result_is_trimmed idle_platform "text" "  a  b " "a  b" None
              ltac:(discriminate) eq_refl) as (_ & Ha & _ & _ & Hs).
  split; [exact Ha | exact Hs].
Defined.

(** X3.  The extension is matched without regard to case: two uploads with
    the same bytes whose names differ only in case resolve alike. *)
Theorem extension_ignores_case
    (W : Platform) (conversation_text : string) (f g : Main.UploadFile) :
  lower (Main.filename f) = lower (Main.filename g) ->
  Main.content f = Main.content g ->
  Main.resolve_raw_text W "file" conversation_text (Some f) =
    Main.resolve_raw_text W "file" conversation_text (Some g).
Proof.
  intros Hn Hc. unfold Main.resolve_raw_text.
  change (String.eqb "file" "file") with true. cbv iota.
  rewrite Hn, Hc.
  destruct (String.eqb (Main.filename f) "") eqn:Ef;
    destruct (String.eqb (Main.filename g) "") eqn:Eg; try reflexivity.
  - apply String.eqb_eq in Ef. apply String.eqb_neq in Eg.
    rewrite Ef in Hn. symmetry in Hn.
    apply (proj1 (lower_empty (Main.filename g))) in Hn. contradiction.
  - apply String.eqb_eq in Eg. apply String.eqb_neq in Ef.
    rewrite Eg in Hn.
    apply (proj1 (lower_empty (Main.filename f))) in Hn. contradiction.
Qed.

Lemma extension_ignores_case_witness :
  Main.resolve_raw_text idle_platform "file" "" (Some shouted_txt) =
    Main.resolve_raw_text idle_platform "file" "" (Some plain_txt).
Proof.
  apply (extension_ignores_case idle_platform "" shouted_txt plain_txt);
    reflexivity.
Defined.

(** X4.  The input is checked before anything else: blank text in text mode,
    and file mode without a file, give the form with the validation message
    on every platform, the credential missing or not. *)
Theorem validation_comes_first
    (W : Platform) (T : Main.Template)
    (conversation_text project_key input_mode : string)
    (upload : option Main.UploadFile) :
  (input_mode <> "file" -> all_space conversation_text = true ->
   Main.generate_word W T conversation_text project_key input_mode upload =
     Main.render_form_page T conversation_text project_key input_mode
       (Some Main.no_text_message))
  /\ Main.generate_word W T conversation_text project_key "file" None =
       Main.render_form_page T conversation_text project_key "file"
         (Some Main.no_file_message).
Proof.
  split; [|reflexivity].
  intros Hm Hs. apply String.eqb_neq in Hm.
  unfold Main.generate_word, Main.pipeline.
  now rewrite (resolve_text_branch W input_mode conversation_text upload Hm), Hs.
Qed.

Lemma validation_comes_first_witness :
  Main.generate_word no_key_platform sample_main_template "  " "AUTH" "text" None =
    Main.render_form_page sample_main_template "  " "AUTH" "text"
      (Some Main.no_text_message).
Proof.
  apply (proj1 (validation_comes_first no_key_platform sample_main_template
                  "  " "AUTH" "text" None)); [discriminate | reflexivity].
Defined.

(** ** Requirement extractor and what the handler shows of its failures *)

Section ExtractorFailures.

Lemma take_all (n : nat) (s : string) : String.length s <= n -> take n s = s.
Proof.
  revert s; induction n as [|n IH]; intros [|c s]; cbn [take String.length];
    intros H; try reflexivity; [lia|]. now rewrite IH by lia.
Qed.

Variable W : Platform.

Lemma extract_empty_credential (raw_text : string) :
  getenv W "OPENAI_API_KEY" = Some "" ->
  generate_requirements_from_text W raw_text = Raise ConfigurationError.
Proof. intros H. unfold generate_requirements_from_text. now rewrite H. Qed.


(** The handler once the input is resolved and the extractor has failed. *)
Lemma main_extractor_failure (T : Main.Template)
    (conversation_text project_key input_mode raw_text : string)
    (upload : option Main.UploadFile) (e : exn) :
  Main.resolve_raw_text W input_mode conversation_text upload = Ok raw_text ->
  generate_requirements_from_text W raw_text = Raise e ->
  Main.generate_word W T conversation_text project_key input_mode upload =
    Main.render_form_page T conversation_text project_key input_mode
      (Some (error_message_of e)).
Proof.
  intros Hr He. unfold Main.generate_word, Main.pipeline.
  now rewrite Hr; cbn [bind]; rewrite He.
Qed.

End ExtractorFailures.

(** X5.  A credential that is missing or is the empty string stops every
    submission whose input resolves: the answer is the form with the
    missing-key message, whatever the service would have said. *)
Theorem credential_missing_or_empty
    (W : Platform) (T : Main.Template)
    (conversation_text project_key input_mode raw_text : string)
    (upload : option Main.UploadFile) :
  Main.resolve_raw_text W input_mode conversation_text upload = Ok raw_text ->
  getenv W "OPENAI_API_KEY" = None \/ getenv W "OPENAI_API_KEY" = Some "" ->
  Main.generate_word W T conversation_text project_key input_mode upload =
    Main.render_form_page T conversation_text project_key input_mode
      (Some missing_key_message).
Proof.
  intros Hr Hk.
  apply (main_extractor_failure W T _ _ _ raw_text _ ConfigurationError Hr).
  destruct Hk as [Hk|Hk];
    [now apply extract_no_credential | now apply extract_empty_credential].
Qed.

Lemma credential_missing_or_empty_witness :
  Main.generate_word empty_key_platform sample_main_template
    "notes" "" "text" None =
    Main.render_form_page sample_main_template "notes" "" "text"
      (Some missing_key_message).
Proof.
  apply (credential_missing_or_empty empty_key_platform sample_main_template
           "notes" "" "text" "notes" None eq_refl).
  right. reflexivity.
Defined.



(** X7.  The preview of a refused answer never has a newline; when the
    answer has at most 200 characters and no newline, the message ends with
    the answer itself. *)
Theorem preview_of_refused_answer
    (W : Platform) (raw_text api_key json_text parser_error : string) :
  getenv W "OPENAI_API_KEY" = Some api_key -> api_key <> "" ->
  responses_create W api_key (extraction_request raw_text) = Ok json_text ->
  all_space json_text = false ->
  json_loads W json_text = JSONDecodeError parser_error ->
  exists preview,
    generate_requirements_from_text W raw_text =
      Raise (Exn ValueError
               ("Model output was not valid JSON. Error: " ++ parser_error
                ++ ". Output preview: " ++ preview))
    /\ mem "010"%char preview = false
    /\ (String.length json_text <= 200 -> mem "010"%char json_text = false ->
        preview = json_text).
Proof.
  intros Hk Hn Ha Hs Hl. exists (replace_nl (take 200 json_text)).
  split; [|split].
  - now rewrite (extract_answered W raw_text api_key json_text Hk Hn Ha), Hs, Hl.
  - apply replace_nl_no_nl.
  - intros Hlen Hnl. rewrite (take_all 200 json_text Hlen).
    now apply replace_nl_id.
Qed.

Lemma preview_of_refused_answer_witness :
  exists preview,
    generate_requirements_from_text cut_answer_platform "notes" =
      Raise (Exn ValueError
               ("Model output was not valid JSON. Error: " ++ cut_answer_error
                ++ ". Output preview: " ++ preview))
    /\ mem "010"%char preview = false.
Proof.
  destruct (preview_of_refused_answer cut_answer_platform "notes" "sk-test"
              cut_answer cut_answer_error eq_refl ltac:(discriminate)
              eq_refl eq_refl eq_refl) as (preview & Hr & Hm & _).
  exists preview. split; [exact Hr | exact Hm].
Defined.

(** ** Document renderer *)

Section RendererEdges.


Lemma dependencies_para_shape (dependencies : value) (deps : list block) :
  dependencies_para dependencies = Ok deps ->
  deps = [] \/ exists joined, deps = [dependencies_line joined].
Proof.
  unfold dependencies_para. destruct (Py.truthy dependencies).
  - destruct (Py.join ", " dependencies) as [joined|e]; cbn [bind];
      [|discriminate]. intros [= <-]. right. now exists joined.
  - intros [= <-]. now left.
Qed.


Lemma filter_bullets (criteria : list value) :
  List.filter is_bullet (List.map bullet criteria) = List.map bullet criteria.
Proof.
  induction criteria as [|c l IH]; [reflexivity|].
  cbn [List.map List.filter bullet is_bullet].
  change (String.eqb "List Bullet" "List Bullet") with true. cbv iota.
  f_equal. exact IH.
Qed.

End RendererEdges.









(** X12.  Whenever a section renders, its bullets are the acceptance
    criteria, one each and in their order; with no criteria there is no
    bullet. *)
Theorem bullets_are_the_criteria
    (d : dict) (deps : list block) (criteria : list value) :
  dependencies_para (Py.field d "dependencies" (VList [])) = Ok deps ->
  Py.iter (Py.field d "acceptance_criteria" (VList [])) = Ok criteria ->
  exists section,
    render_requirement (VDict d) = Ok section
    /\ List.filter is_bullet section = List.map bullet criteria
    /\ List.length section = 6 + List.length deps + List.length criteria.
Proof.
  intros Hd Hc. rewrite render_requirement_dict, Hd, Hc. cbn [bind].
  eexists. split; [reflexivity|]. split.
  - unfold section_tail, requirement_heading.
    cbn [List.filter is_bullet]. rewrite !filter_app, filter_bullets.
    destruct (dependencies_para_shape _ _ Hd) as [-> | (j & ->)];
      cbn [List.filter is_bullet dependencies_line app];
      now rewrite app_nil_r.
  - unfold section_tail. cbn [List.length].
    rewrite !List.length_app, List.length_map. cbn [List.length]. lia.
Qed.

Lemma bullets_are_the_criteria_witness :
  exists section,
    render_requirement (VDict password_reset_requirement) = Ok section
    /\ List.length (List.filter is_bullet section) = 1
    /\ List.length section = 7.
Proof.
  destruct (bullets_are_the_criteria password_reset_requirement [] _
              eq_refl eq_refl) as (section & Hr & Hb & Hl).
  exists section. split; [exact Hr|]. split; [now rewrite Hb | exact Hl].
Defined.

Section DocumentShape.

Lemma inner_blocks_filtered (body : list block) :
  forallb is_inner_block body = true ->
  List.filter is_page_break body = [] /\ List.filter is_heading1 body = [].
Proof.
  induction body as [|b body IH]; cbn [forallb List.filter]; [now split|].
  intros H. apply andb_true_iff in H as [Hb Hl]. destruct (IH Hl) as [Hp Hh].
  unfold is_inner_block in Hb. apply andb_true_iff in Hb as [Hb1 Hb2].
  apply negb_true_iff in Hb1, Hb2. now rewrite Hb1, Hb2.
Qed.

Lemma section_breaks_and_headings (req : value) (section : list block) :
  is_section_of req section ->
  List.length (List.filter is_page_break section) = 1
  /\ List.length (List.filter is_heading1 section) = 1.
Proof.
  intros (d & body & _ & -> & Hb).
  destruct (inner_blocks_filtered body Hb) as [Hp Hh].
  unfold requirement_heading. cbn [List.filter is_page_break is_heading1].
  rewrite !filter_app, Hp, Hh. now split.
Qed.

Lemma sections_breaks_and_headings (reqs : list value) (sections : list (list block)) :
  Forall2 is_section_of reqs sections ->
  List.length (List.filter is_page_break (List.concat sections)) = List.length reqs
  /\ List.length (List.filter is_heading1 (List.concat sections)) = List.length reqs.
Proof.
  induction 1 as [|r s reqs sections Hs _ IH]; [now split|].
  destruct IH as [IHp IHh].
  destruct (section_breaks_and_headings r s Hs) as [Hp Hh].
  cbn [List.concat List.length]. rewrite !filter_app, !List.length_app.
  split; lia.
Qed.

(** A well-formed set renders to the front matter and the sections of its
    requirements. *)
Lemma build_document_valid (d : dict) :
  valid_requirement_set (VDict d) = true ->
  exists sections,
    build_document (VDict d) =
      Ok (front_matter (Py.field d "project_key" (VStr "PROJECT"))
          ++ List.concat sections)%list
    /\ Forall2 is_section_of (requirements_of (VDict d)) sections.
Proof.
  cbn [valid_requirement_set]. intros H. apply andb_true_iff in H as [_ Hr].
  assert (Hreqs : Py.field d "requirements" (VList [])
                  = VList (requirements_of (VDict d))
                  /\ forallb valid_requirement (requirements_of (VDict d)) = true).
  { unfold field_is in Hr. unfold Py.field, requirements_of.
    destruct (Py.dict_get d "requirements") as [v|]; [|now split].
    destruct v; try discriminate Hr. now split. }
  destruct Hreqs as [Hf Hv].
  destruct (valid_requirements_sections _ Hv) as (sections & Hm & Hall).
  exists sections. split; [|exact Hall].
  unfold build_document. cbn [Py.get bind]. rewrite Hf. cbn [Py.iter bind].
  now rewrite Hm.
Qed.

End DocumentShape.

(** X13.  The document of a well-formed set of N requirements has N+1 page
    breaks and N+1 level-1 headings: those of the sections and, before them,
    the page break and the Overview heading of the front matter. *)
Theorem page_breaks_and_headings (data : value) :
  valid_requirement_set data = true ->
  exists doc,
    build_document data = Ok doc
    /\ List.length (List.filter is_page_break doc) =
         S (List.length (requirements_of data))
    /\ List.length (List.filter is_heading1 doc) =
         S (List.length (requirements_of data)).
Proof.
  destruct data as [| | | | |d]; try discriminate. intros H.
  destruct (build_document_valid d H) as (sections & Hb & Hall).
  destruct (sections_breaks_and_headings _ _ Hall) as [Hp Hh].
  eexists. split; [exact Hb|].
  rewrite !filter_app, !List.length_app, Hp, Hh. now split.
Qed.

Lemma page_breaks_and_headings_witness :
  exists doc,
    build_document password_reset_set = Ok doc
    /\ List.length (List.filter is_page_break doc) = 4
    /\ List.length (List.filter is_heading1 doc) = 4.
Proof. exact (page_breaks_and_headings password_reset_set eq_refl). Defined.


(** X15.  An answer of the service that parses to something other than an
    object never gives a download: the handler shows the form with the fixed
    sentence of unexpected failures, with or without a project key from the
    user. *)
Theorem non_object_answer
    (W : Platform) (T : Main.Template)
    (conversation_text project_key input_mode raw_text : string)
    (upload : option Main.UploadFile) (data : value) :
  Main.resolve_raw_text W input_mode conversation_text upload = Ok raw_text ->
  generate_requirements_from_text W raw_text = Ok data ->
  is_dict data = false ->
  exists details,
    Main.generate_word W T conversation_text project_key input_mode upload =
      Main.render_form_page T conversation_text project_key input_mode
        (Some (generic_failure_message details)).
Proof.
  intros Hr He Hd. unfold Main.generate_word, Main.pipeline, Main.respond.
  rewrite Hr. cbn [bind]. rewrite He. cbn [bind].
  destruct (String.eqb project_key "");
    destruct data; try discriminate Hd; cbn; eexists; reflexivity.
Qed.

Lemma non_object_answer_witness :
  exists details,
    Main.generate_word array_answer_platform sample_main_template
      "notes" "AUTH" "text" None =
      Main.render_form_page sample_main_template "notes" "AUTH" "text"
        (Some (generic_failure_message details)).
Proof.
  exact (non_object_answer array_answer_platform sample_main_template
           "notes" "AUTH" "text" "notes" None (VList [])
           eq_refl eq_refl eq_refl).
Defined.

(** ** The form pages *)

Section EscapeFacts.

Lemma mem_one (x c : ascii) : mem x (String c "") = Ascii.eqb x c.
Proof. cbn [mem]. apply orb_false_r. Qed.

Lemma escape_char_markup_free (x c : ascii) :
  x <> "&"%char -> is_special x = true -> mem x (escape_char c) = false.
Proof.
  intros Hamp Hx. unfold escape_char.
  destruct (Ascii.eqb c "&"%char) eqn:E1;
    [|destruct (Ascii.eqb c "<"%char) eqn:E2;
      [|destruct (Ascii.eqb c ">"%char) eqn:E3;
        [|destruct (Ascii.eqb c "034"%char) eqn:E4;
          [|destruct (Ascii.eqb c "'"%char) eqn:E5]]]].
  6: { rewrite mem_one. unfold is_special in Hx.
       repeat (apply orb_true_iff in Hx as [Hx|Hx]);
         apply Ascii.eqb_eq in Hx; subst x;
         rewrite Ascii.eqb_sym; assumption. }
  all: unfold is_special in Hx;
    repeat (apply orb_true_iff in Hx as [Hx|Hx]);
    apply Ascii.eqb_eq in Hx; subst x; try reflexivity; congruence.
Qed.

Lemma escape_char_plain (c : ascii) :
  is_special c = false -> escape_char c = String c "".
Proof.
  unfold is_special, escape_char. intros H.
  repeat (apply orb_false_iff in H as [H ?]).
  now repeat match goal with E : Ascii.eqb _ _ = false |- _ => rewrite E; clear E end.
Qed.

End EscapeFacts.

(** X16.  What the form pages insert for the text, the project key and the
    error message has no [<], [>], double quote or single quote left in it,
    so it cannot open a tag or close an attribute; text without any of the
    five replaced characters is inserted as it is. *)
Theorem escaped_text_is_inert (s : string) :
  (forall x, x <> "&"%char -> is_special x = true ->
             mem x (html_escape s) = false)
  /\ (no_special s = true -> html_escape s = s).
Proof.
  unfold html_escape. split.
  - intros x Hamp Hx. induction s as [|c s IH]; [reflexivity|].
    cbn [flat_map]. now rewrite mem_append, (escape_char_markup_free x c Hamp Hx).
  - induction s as [|c s IH]; [reflexivity|]. cbn [no_special flat_map].
    intros H. apply andb_true_iff in H as [Hc Hs]. apply negb_true_iff in Hc.
    now rewrite (escape_char_plain c Hc), IH.
Qed.

Lemma escaped_text_is_inert_witness :
  mem "<"%char (html_escape "<script>alert('x')</script>") = false
  /\ html_escape "Users reset passwords" = "Users reset passwords".
Proof.
  split.
  - apply (proj1 (escaped_text_is_inert "<script>alert('x')</script>"));
      [discriminate | reflexivity].
  - apply (proj2 (escaped_text_is_inert "Users reset passwords")). reflexivity.
Defined.

(** ** The older handler *)

Section CopyFacts.

Lemma copy_page_carries (T : Copy.Template)
    (conversation_text project_key : string) (error_message : option string) :
  let page := Copy.html_content T conversation_text project_key error_message in
  contains (html_escape conversation_text) page
  /\ contains (html_escape project_key) page
  /\ contains (Copy.error_html T error_message) page.
Proof.
  cbv zeta. unfold Copy.html_content.
  repeat split; apply contains_concat; cbn [In]; tauto.
Qed.

End CopyFacts.

(** X17.  The older handler has the same error boundary: whatever exception
    its [try] body ends with, the answer is its form page with status 200,
    holding the escaped text and project key as they were sent (nothing for a
    missing key) and, for a message that is not empty, the error block with
    the escaped message. *)
Theorem copy_errors_rerender_form
    (W : Platform) (T : Copy.Template)
    (conversation_text : string) (project_key : option string) (e : exn) :
  Copy.pipeline W conversation_text project_key = Raise e ->
  exists page,
    Copy.generate_word W T conversation_text project_key = HTMLResponse page 200
    /\ contains (html_escape conversation_text) page
    /\ contains (html_escape (Copy.or_empty project_key)) page
    /\ (error_message_of e <> "" ->
        contains (Copy.error_open T ++ html_escape (error_message_of e)
                  ++ Copy.error_close T) page).
Proof.
  intros H. eexists. split.
  - unfold Copy.generate_word. rewrite H. reflexivity.
  - destruct (copy_page_carries T conversation_text (Copy.or_empty project_key)
                (Some (error_message_of e))) as (Hc & Hk & He).
    split; [exact Hc|]. split; [exact Hk|].
    intros Hn. unfold Copy.error_html in He.
    destruct (error_message_of e); [congruence | exact He].
Qed.

Lemma copy_errors_rerender_form_witness :
  exists page,
    Copy.generate_word no_key_platform sample_copy_template "a & b" None =
      HTMLResponse page 200
    /\ contains "a &amp; b" page
    /\ contains ("<div class=error>" ++ missing_key_message ++ "</div>") page.
Proof.
  destruct (copy_errors_rerender_form no_key_platform sample_copy_template
              "a & b" None ConfigurationError eq_refl)
    as (page & Hg & Hc & _ & He).
  exists page. split; [exact Hg|]. split; [exact Hc|].
  apply He. discriminate.
Defined.



(** ** What the handler and the extractor can give *)

Section Outcomes.

Variable W : Platform.

Lemma respond_is_download (data : value) (project_key : string) (r : response) :
  Main.respond W data project_key = Ok r ->
  exists doc_bytes name,
    r = attachment doc_bytes (name ++ "_requirements.docx").
Proof.
  unfold Main.respond.
  destruct (if String.eqb project_key "" then Ok data
            else Py.setitem data "project_key" (VStr project_key))
    as [data'|e]; cbn [bind]; [|discriminate].
  destruct (create_word_bytes_from_requirements W data') as [doc_bytes|e];
    cbn [bind]; [|discriminate].
  destruct (Py.get data' "project_key" (VStr "PROJECT")) as [key|e];
    cbn [bind]; [|discriminate].
  intros [= <-]. now exists doc_bytes, (Py.str key).
Qed.

End Outcomes.

(** X19.  The POST handler gives one of two things, both with status 200:
    the form page, or a download of the document media type whose file name
    ends with [_requirements.docx]. *)
Theorem handler_outcomes
    (W : Platform) (T : Main.Template)
    (conversation_text project_key input_mode : string)
    (upload : option Main.UploadFile) :
  (exists page,
      Main.generate_word W T conversation_text project_key input_mode upload =
        HTMLResponse page 200)
  \/ (exists doc_bytes name,
        Main.generate_word W T conversation_text project_key input_mode upload =
          StreamingResponse doc_bytes 200 docx_media_type
            [("Content-Disposition", "attachment; filename=" ++ dq ++ name ++ dq)]
        /\ endswith name "_requirements.docx" = true).
Proof.
  unfold Main.generate_word, Main.pipeline.
  destruct (Main.resolve_raw_text W input_mode conversation_text upload)
    as [raw|e]; cbn [bind]; [|left; eexists; reflexivity].
  destruct (generate_requirements_from_text W raw) as [data|e]; cbn [bind];
    [|left; eexists; reflexivity].
  destruct (Main.respond W data project_key) as [r|e] eqn:E;
    [|left; eexists; reflexivity].
  destruct (respond_is_download W data project_key r E) as (b & n & ->).
  right. exists b, (n ++ "_requirements.docx"). split; [reflexivity|].
  apply endswith_append.
Qed.

(** X20.  The extractor returns data only when the credential is there and
    not empty, the service answered with text that is not blank, and the
    parser accepted that text; the data is what the parser made of it. *)
Theorem extraction_success (W : Platform) (raw_text : string) (data : value) :
  generate_requirements_from_text W raw_text = Ok data ->
  exists api_key json_text,
    getenv W "OPENAI_API_KEY" = Some api_key /\ api_key <> ""
    /\ responses_create W api_key (extraction_request raw_text) = Ok json_text
    /\ all_space json_text = false
    /\ json_loads W json_text = Parsed data.
Proof.
  unfold generate_requirements_from_text.
  destruct (getenv W "OPENAI_API_KEY") as [[|c k]|] eqn:Hk; try discriminate.
  destruct (responses_create W (String c k) (extraction_request raw_text))
    as [json_text|e] eqn:Ha; cbn [bind]; [|discriminate].
  destruct (String.eqb json_text "" || String.eqb (strip json_text) "") eqn:Hb;
    [discriminate|].
  destruct (json_loads W json_text) as [v|m] eqn:Hl; [|discriminate].
  intros [= <-]. exists (String c k), json_text.
  split; [reflexivity|]. split; [discriminate|]. split; [exact Ha|].
  split; [|exact Hl].
  apply orb_false_iff in Hb as [_ Hs].
  destruct (all_space json_text) eqn:E; [|reflexivity].
  apply strip_empty_iff in E. rewrite E in Hs. discriminate Hs.
Qed.

Lemma extraction_success_witness :
  exists api_key json_text,
    getenv empty_object_platform "OPENAI_API_KEY" = Some api_key
    /\ api_key <> ""
    /\ responses_create empty_object_platform api_key
         (extraction_request "notes") = Ok json_text
    /\ all_space json_text = false
    /\ json_loads empty_object_platform json_text = Parsed (VDict []).
Proof.
  exact (extraction_success empty_object_platform "notes" (VDict []) eq_refl).
Defined.


